(** * BankingWebsite: the account ledger, the transaction log and the Bank facade

    A shallow embedding of [banking_app.py]: the two SQLite tables the
    [Bank] and [Account] classes read and write, the Streamlit status
    messages they emit, and the exceptions: the [InsufficientFundsError]
    that [Account.withdraw] raises and [Bank.withdraw] catches, and the
    [OverflowError] that Python and the sqlite3 module raise on integers
    that are too large, which nothing catches; then the entry page with its
    [users] table and the session, and the script that routes between the
    entry page and the banking page.

    Modelling choices.
    - An amount is a Python [int], a [Z] of any size: the presentation layer
      obtains every amount from [st.number_input(..., value=100)], which
      yields integers.
    - A balance is a Python [float] read from the REAL column of the
      accounts table.  All the floats that the program can reach from
      integer amounts are integers or infinite, so a float is the integer it
      stands for, or an infinity ([pyfloat]); sums, differences and the
      conversion of integers round to the nearest binary64 value, ties to
      even ([round_int]).
    - The sqlite3 module binds a Python [int] as a 64-bit integer and raises
      [OverflowError] when it does not fit; a REAL column keeps an integer
      as the nearest binary64 value.
    - The [accounts] table has [account_number] as PRIMARY KEY: it is a
      finite map from account number to the rest of the row.
    - The [transactions] table is the list of its rows in insertion order;
      AUTOINCREMENT gives the next row the id [length + 1] (no row is ever
      deleted).
    - [CURRENT_TIMESTAMP] is read from the environment: the world carries a
      [clock], in seconds.  The database keeps timestamps as fixed-width
      text ['YYYY-MM-DD HH:MM:SS'], whose string order is the order of the
      instants, so a timestamp is the [Z] it stands for.
    - Every call of [st.success], [st.warning] and [st.error] appends to the
      output [st_out] of the world. *)

From stdpp Require Import base option list gmap strings sorting.
From Stdlib Require Import ZArith Lia.

Open Scope string_scope.
Open Scope list_scope.
Open Scope Z_scope.

(** ** Numbers

    The binary64 values with an integer value, and the two infinities. *)
Inductive pyfloat :=
  | Fin (z : Z)
  | PosInf
  | NegInf.

#[global] Instance pyfloat_eq_dec : EqDecision pyfloat.
Proof. solve_decision. Defined.

(** The unit in the last place of an integer [z >= 0] written with 53
    binary digits: 1 below 2^53, and [2 ^ (log2 z - 52)] from there on. *)
Definition ulp_exp (z : Z) : Z := Z.max 0 (Z.log2 z - 52).
Definition ulp (z : Z) : Z := 2 ^ ulp_exp z.

(** The nearest multiple of the unit in the last place, the even one of two
    that are as near ([z >= 0]). *)
Definition round_nat (z : Z) : Z :=
  let u := ulp z in
  let q := z / u in
  let r := z mod u in
  if 2 * r <? u then q * u
  else if u <? 2 * r then (q + 1) * u
  else if Z.even q then q * u
  else (q + 1) * u.

(** The integer rounded to 53 binary digits, as binary64 does. *)
Definition round_int (z : Z) : Z :=
  if z <? 0 then - round_nat (- z) else round_nat z.

(** Binary64 has no finite value of magnitude 2^1024 or more. *)
Definition huge : Z := 2 ^ 1024.

(** The binary64 value of an exact integer result. *)
Definition to_float (z : Z) : pyfloat :=
  let y := round_int z in
  if huge <=? y then PosInf
  else if y <=? - huge then NegInf
  else Fin y.

(** [x + y] and [x - y] for a float [x] and a finite float [y]. *)
Definition fadd (x : pyfloat) (y : Z) : pyfloat :=
  match x with
  | Fin b => to_float (b + y)
  | PosInf => PosInf
  | NegInf => NegInf
  end.

Definition fsub (x : pyfloat) (y : Z) : pyfloat :=
  match x with
  | Fin b => to_float (b - y)
  | PosInf => PosInf
  | NegInf => NegInf
  end.

(** Python's [a <= x] for an [int] and a [float]: the comparison is exact. *)
Definition int_le_float (a : Z) (x : pyfloat) : bool :=
  match x with
  | Fin b => a <=? b
  | PosInf => true
  | NegInf => false
  end.

(** The order of floats. *)
Definition fle (x y : pyfloat) : Prop :=
  match x, y with
  | NegInf, _ => True
  | _, PosInf => True
  | Fin a, Fin b => a <= b
  | _, _ => False
  end.

#[global] Instance fle_dec (x y : pyfloat) : Decision (fle x y).
Proof. destruct x, y; cbn; apply _. Defined.

(** The values a REAL column or a Python float can hold. *)
Definition is_double (x : pyfloat) : Prop :=
  match x with
  | Fin z => round_int z = z /\ - huge < z < huge
  | PosInf | NegInf => True
  end.

#[global] Instance is_double_dec (x : pyfloat) : Decision (is_double x).
Proof. destruct x; cbn; apply _. Defined.

(** The integers that fit in 64 bits. *)
Definition in_int64 (z : Z) : bool :=
  (- 2 ^ 63 <=? z) && (z <? 2 ^ 63).

Arguments round_int : simpl never.
Arguments to_float : simpl never.
Arguments fadd : simpl never.
Arguments fsub : simpl never.
Arguments in_int64 : simpl never.
Arguments huge : simpl never.

(** ** The datastore and the page output *)

(** [accounts(account_number PRIMARY KEY, name, balance REAL)], without the
    key. *)
Record account_row := AccountRow {
  row_name : string;
  row_balance : pyfloat
}.

(** [transactions(id, account_number, transaction_desc, amount REAL,
    timestamp)]; an amount in the table is finite. *)
Record txn_row := TxnRow {
  txn_id : Z;
  txn_account_number : string;
  txn_desc : string;
  txn_amount : Z;
  txn_timestamp : Z
}.

(** One Streamlit status element. *)
Inductive st_msg :=
  | Success (body : string)
  | Warning (body : string)
  | Error (body : string).

Record world := World {
  accounts : gmap string account_row;
  transactions : list txn_row;
  clock : Z;
  st_out : list st_msg
}.

#[global] Instance account_row_eq_dec : EqDecision account_row.
Proof. solve_decision. Defined.
#[global] Instance txn_row_eq_dec : EqDecision txn_row.
Proof. solve_decision. Defined.
#[global] Instance st_msg_eq_dec : EqDecision st_msg.
Proof. solve_decision. Defined.

(** ** Exceptions and the monad of the program

    A computation reads and writes the world and either returns a value or
    raises. *)

Inductive exn :=
  | InsufficientFundsError (message : string)
  | OverflowError (message : string).

(** Python's [str(e)]. *)
Definition str (e : exn) : string :=
  match e with
  | InsufficientFundsError message => message
  | OverflowError message => message
  end.

Inductive outcome (A : Type) :=
  | Ret (a : A)
  | Raise (e : exn).
Arguments Ret {A} a.
Arguments Raise {A} e.

Definition M (A : Type) : Type := world -> outcome A * world.

Definition ret {A} (a : A) : M A := fun w => (Ret a, w).

Definition bind {A B} (m : M A) (k : A -> M B) : M B :=
  fun w =>
    match m w with
    | (Ret a, w') => k a w'
    | (Raise e, w') => (Raise e, w')
    end.

Definition raise {A} (e : exn) : M A := fun w => (Raise e, w).

(** [try: body except ... as e: handler e]; a handler for one class raises
    the exceptions of the others again. *)
Definition try_except {A} (body : M A) (handler : exn -> M A) : M A :=
  fun w =>
    match body w with
    | (Ret a, w') => (Ret a, w')
    | (Raise e, w') => handler e w'
    end.

Declare Scope prog_scope.
Delimit Scope prog_scope with prog.
Notation "'do' x <- m ; k" := (bind m (fun x => k))
  (at level 10, x name, m at level 100, k at level 200) : prog_scope.
Notation "m ;; k" := (bind m (fun _ => k))
  (at level 100, k at level 200, right associativity) : prog_scope.
Open Scope prog_scope.

(** The world a computation leaves behind, and what it returned. *)
Definition after {A} (m : M A) (w : world) : world := snd (m w).
Definition result {A} (m : M A) (w : world) : outcome A := fst (m w).

(** ** Conversions that can fail *)

(** The float of a Python [int], as [float + int] and [float - int] take
    it: the nearest binary64 value, and [OverflowError] when that is not
    finite. *)
Definition float_of_int (z : Z) : M Z :=
  let y := round_int z in
  if (huge <=? y) || (y <=? - huge) then
    raise (OverflowError "int too large to convert to float")
  else ret y.

(** A Python [int] bound to a parameter of a statement. *)
Definition bind_int (z : Z) : M Z :=
  if in_int64 z then ret z
  else raise (OverflowError "Python int too large to convert to SQLite INTEGER").

(** ** Streamlit output *)

Definition emit (x : st_msg) : M unit :=
  fun w => (Ret tt, World (accounts w) (transactions w) (clock w) (st_out w ++ [x])).

Definition st_success (body : string) : M unit := emit (Success body).
Definition st_warning (body : string) : M unit := emit (Warning body).
Definition st_error (body : string) : M unit := emit (Error body).

(** ** The SQL statements of the program *)

(** [SELECT * FROM accounts WHERE account_number = ?] then [fetchone()]:
    the row as the tuple (account_number, name, balance), or [None]. *)
Definition select_account (account_number : string)
  : M (option (string * string * pyfloat)) :=
  fun w =>
    (Ret (match accounts w !! account_number with
          | Some r => Some (account_number, row_name r, row_balance r)
          | None => None
          end), w).

(** [SELECT name, balance FROM accounts WHERE account_number = ?]. *)
Definition select_name_balance (account_number : string) : M (option (string * pyfloat)) :=
  fun w =>
    (Ret (match accounts w !! account_number with
          | Some r => Some (row_name r, row_balance r)
          | None => None
          end), w).

(** [INSERT INTO accounts (account_number, name, balance) VALUES (?, ?, ?)]
    and [conn.commit()]; returns [cursor.rowcount].  The balance is bound as
    an integer and kept as a REAL.  The caller has checked that the key is
    free. *)
Definition insert_account (account_number name : string) (balance : Z) : M Z :=
  do v <- bind_int balance;
  fun w =>
    (Ret 1,
     World (<[account_number := AccountRow name (Fin (round_int v))]> (accounts w))
           (transactions w) (clock w) (st_out w)).

(** [UPDATE accounts SET balance = ? WHERE account_number = ?] and
    [conn.commit()]: changes the matching row, if there is one.  The balance
    is bound as a float. *)
Definition update_balance (balance : pyfloat) (account_number : string) : M unit :=
  fun w =>
    (Ret tt,
     World (alter (fun r => AccountRow (row_name r) balance) account_number (accounts w))
           (transactions w) (clock w) (st_out w)).

(** [INSERT INTO transactions (account_number, transaction_desc, amount)
    VALUES (?, ?, ?)] and [conn.commit()]: the amount is bound as an
    integer and kept as a REAL; [id] and [timestamp] take their defaults. *)
Definition insert_transaction (account_number transaction_desc : string) (amount : Z) : M unit :=
  do v <- bind_int amount;
  fun w =>
    (Ret tt,
     World (accounts w)
           (transactions w ++
              [TxnRow (Z.of_nat (length (transactions w)) + 1)
                      account_number transaction_desc (round_int v) (clock w)])
           (clock w) (st_out w)).

(** A stable sort by decreasing key: an element goes in front of the first
    element whose key is not greater than its own, so elements with equal
    keys keep the order they had.  Python's [list.sort(key=..., reverse=True)]
    is stable, and a stable sort has one possible result. *)
Fixpoint insert_desc {A} (key : A -> Z) (x : A) (l : list A) : list A :=
  match l with
  | [] => [x]
  | y :: l' => if key y <=? key x then x :: y :: l' else y :: insert_desc key x l'
  end.

Fixpoint sort_desc {A} (key : A -> Z) (l : list A) : list A :=
  match l with
  | [] => []
  | x :: l' => insert_desc key x (sort_desc key l')
  end.

(** A fetched row (action, amount, timestamp). *)
Definition txn_tuple : Type := string * Z * Z.

Definition tuple_of (r : txn_row) : txn_tuple :=
  (txn_desc r, txn_amount r, txn_timestamp r).

Definition tuple_timestamp (x : txn_tuple) : Z := snd x.
Definition tuple_action (x : txn_tuple) : string := fst (fst x).

(** [SELECT transaction_desc AS action, amount, timestamp FROM transactions
    WHERE account_number = ? AND transaction_desc = '<desc>'
    ORDER BY timestamp DESC] then [fetchall()].  SQL leaves the order of
    rows with equal timestamps open; the model takes table order. *)
Definition select_transactions_desc (account_number transaction_desc : string)
  : M (list txn_tuple) :=
  fun w =>
    (Ret (tuple_of <$>
            sort_desc txn_timestamp
              (filter (fun r => txn_account_number r = account_number
                                /\ txn_desc r = transaction_desc)
                      (transactions w))), w).

(** [SELECT transaction_desc, amount, timestamp FROM transactions
    WHERE account_number = ?] then [fetchall()]. *)
Definition select_transactions (account_number : string) : M (list txn_tuple) :=
  fun w =>
    (Ret (tuple_of <$>
            filter (fun r => txn_account_number r = account_number) (transactions w)), w).

(** [account_exists]. *)
Definition account_exists (account_number : string) : M bool :=
  do row <- select_account account_number;
  ret (match row with Some _ => true | None => false end).

(** ** class Account

    An [Account] object is local to one call of the facade; a method that
    assigns to [self] returns the object it leaves.  [__init__] sets the
    balance to 0 and [load_account_info] replaces it with the float of the
    row. *)
Module Account.

Record t := Make {
  _account_number : string;
  _name : string;
  _balance : pyfloat
}.

Definition __init__ (account_number : string) : t :=
  Make account_number "" (Fin 0).

Definition load_account_info (self : t) : M t :=
  do account_data <- select_name_balance (_account_number self);
  match account_data with
  | Some (name, balance) => ret (Make (_account_number self) name balance)
  | None => ret self
  end.

Definition deposit (self : t) (amount : Z) : M t :=
  if 0 <? amount then
    do y <- float_of_int amount;
    let self' := Make (_account_number self) (_name self) (fadd (_balance self) y) in
    update_balance (_balance self') (_account_number self') ;;
    ret self'
  else
    st_warning "Invalid deposit amount" ;;
    ret self.

Definition withdraw (self : t) (amount : Z) : M t :=
  if int_le_float amount (_balance self) && (0 <? amount) then
    do y <- float_of_int amount;
    let self' := Make (_account_number self) (_name self) (fsub (_balance self) y) in
    update_balance (_balance self') (_account_number self') ;;
    ret self'
  else
    raise (InsufficientFundsError
             (if 0 <? amount then "Insufficient funds" else "Invalid withdrawal amount")).

Definition balance_enquiry (self : t) : pyfloat := _balance self.

Definition add_transaction (self : t) (transaction_desc : string) (amount : Z) : M unit :=
  insert_transaction (_account_number self) transaction_desc amount.

Definition get_transaction_history (self : t) : M (list txn_tuple) :=
  select_transactions (_account_number self).

End Account.

(** ** class Bank *)
Module Bank.

Definition get_account (account_number : string) : M (option Account.t) :=
  do account_data <- select_account account_number;
  match account_data with
  | Some (number, _, _) =>
      do account <- Account.load_account_info (Account.__init__ number);
      ret (Some account)
  | None => ret None
  end.

Definition create_account (name account_number : string) (initial_balance : Z) : M unit :=
  do taken <- account_exists account_number;
  if taken then
    st_warning "Account already exists. Please choose a different account number."
  else
    do rowcount <- insert_account account_number name initial_balance;
    if 0 <? rowcount then st_success "Account created successfully."
    else st_error "Failed to create account. Please try again.".

Definition deposit (account_number : string) (amount : Z) : M unit :=
  do account <- get_account account_number;
  match account with
  | None => st_error "Account does not exist. Please enter a valid account number."
  | Some account =>
      do account <- Account.deposit account amount;
      Account.add_transaction account "Deposited" amount
  end.

Definition withdraw (account_number : string) (amount : Z) : M unit :=
  do account <- get_account account_number;
  match account with
  | None => st_error "Account does not exist. Please enter a valid account number."
  | Some account =>
      try_except
        (do account <- Account.withdraw account amount;
         Account.add_transaction account "Withdrawn" amount ;;
         st_success "Amount withdrawn successfully")
        (fun e =>
           match e with
           | InsufficientFundsError _ => st_error (str e)
           | OverflowError _ => raise e
           end)
  end.

(** Returns the pair (balance, name), or [None] after a warning. *)
Definition balance_enquiry (account_number : string) : M (option (pyfloat * string)) :=
  do account <- get_account account_number;
  match account with
  | Some account => ret (Some (Account.balance_enquiry account, Account._name account))
  | None => st_warning "Account not found" ;; ret None
  end.

(** Returns the sorted rows when there is at least one, and [None] both
    for a missing account and for an account without rows. *)
Definition transaction_details (account_number : string) : M (option (list txn_tuple)) :=
  do known <- account_exists account_number;
  if negb known then
    st_error "Account does not exist. Please enter a valid account number." ;;
    ret None
  else
    do deposit_transactions <- select_transactions_desc account_number "Deposited";
    do withdrawal_transactions <- select_transactions_desc account_number "Withdrawn";
    let transactions := deposit_transactions ++ withdrawal_transactions in
    let transactions := sort_desc tuple_timestamp transactions in
    match transactions with
    | _ :: _ => ret (Some transactions)
    | [] => st_warning "No transactions found for this account." ;; ret None
    end.

End Bank.

(** ** Worlds to run the program on *)

Definition empty_world : world := World ∅ [] 0 [].

(** The environment moves the clock between calls. *)
Definition at_time (t : Z) (w : world) : world :=
  World (accounts w) (transactions w) t (st_out w).

(** The page elements a computation adds. *)
Definition emitted {A} (m : M A) (w : world) : list st_msg :=
  drop (length (st_out w)) (st_out (after m w)).

(** ** Sequences of calls on one account *)

Inductive call :=
  | Deposit (amount : Z)
  | Withdraw (amount : Z).

Definition perform (account_number : string) (c : call) : M unit :=
  match c with
  | Deposit amount => Bank.deposit account_number amount
  | Withdraw amount => Bank.withdraw account_number amount
  end.

(** Each call happens at its own time. *)
Fixpoint perform_all (account_number : string) (cs : list (Z * call)) (w : world) : world :=
  match cs with
  | [] => w
  | (t, c) :: cs' => perform_all account_number cs' (after (perform account_number c) (at_time t w))
  end.

(** A call was successful when it put neither a warning nor an error on the
    page. *)
Definition reports_failure (x : st_msg) : bool :=
  match x with
  | Success _ => false
  | Warning _ | Error _ => true
  end.

Definition successful (account_number : string) (c : call) (w : world) : bool :=
  forallb (fun x => negb (reports_failure x)) (emitted (perform account_number c) w).

(** The amounts of the successful deposits, and of the successful
    withdrawals, of a sequence of calls started in [w]. *)
Fixpoint successful_deposits (account_number : string) (cs : list (Z * call)) (w : world) : Z :=
  match cs with
  | [] => 0
  | (t, c) :: cs' =>
      (match c with
       | Deposit amount => if successful account_number c (at_time t w) then amount else 0
       | Withdraw _ => 0
       end)
      + successful_deposits account_number cs' (after (perform account_number c) (at_time t w))
  end.

Fixpoint successful_withdrawals (account_number : string) (cs : list (Z * call)) (w : world) : Z :=
  match cs with
  | [] => 0
  | (t, c) :: cs' =>
      (match c with
       | Deposit _ => 0
       | Withdraw amount => if successful account_number c (at_time t w) then amount else 0
       end)
      + successful_withdrawals account_number cs' (after (perform account_number c) (at_time t w))
  end.

(** The amount of a call, and the sum of the amounts > 0 that a sequence
    asks to deposit. *)
Definition call_amount (c : call) : Z :=
  match c with
  | Deposit amount | Withdraw amount => amount
  end.

Fixpoint deposits_requested (cs : list (Z * call)) : Z :=
  match cs with
  | [] => 0
  | (_, Deposit amount) :: cs' => Z.max 0 amount + deposits_requested cs'
  | (_, Withdraw _) :: cs' => deposits_requested cs'
  end.

(** ** Predicates on worlds *)

(** The invariant of the ledger: no stored balance is negative. *)
Definition balances_nonneg (w : world) : Prop :=
  map_Forall (fun _ r => fle (Fin 0) (row_balance r)) (accounts w).

(** Every stored balance is a value of a REAL column. *)
Definition ledger_ok (w : world) : Prop :=
  map_Forall (fun _ r => is_double (row_balance r)) (accounts w).

(** The rows of one account, in table order. *)
Definition rows_of (account_number : string) (w : world) : list txn_row :=
  filter (fun r => txn_account_number r = account_number) (transactions w).

(** Every row of the log is a deposit or a withdrawal. *)
Definition log_descs_ok (w : world) : Prop :=
  Forall (fun r => txn_desc r = "Deposited" \/ txn_desc r = "Withdrawn") (transactions w).

(** [x] may stand before [y] in a list sorted by decreasing key whose ties
    are settled by [tie]. *)
Definition desc_then {A} (key : A -> Z) (tie : A -> A -> Prop) (x y : A) : Prop :=
  key y < key x \/ (key x = key y /\ tie x y).

(** No withdrawal before a deposit. *)
Definition deposits_first (x y : txn_tuple) : Prop :=
  tuple_action x = "Deposited" \/ tuple_action y = "Withdrawn".

(** The order of a history: newer rows first and, among rows with one
    timestamp, deposits before withdrawals. *)
Definition history_order : txn_tuple -> txn_tuple -> Prop :=
  desc_then tuple_timestamp deposits_first.

(** The rows of one account with one description, as the query of
    [Bank.transaction_details] fetches them. *)
Definition fetched (account_number transaction_desc : string) (w : world) : list txn_tuple :=
  tuple_of <$>
    sort_desc txn_timestamp
      (filter (fun r => txn_account_number r = account_number
                        /\ txn_desc r = transaction_desc)
              (transactions w)).

(** The list [Bank.transaction_details] builds before it looks whether it
    is empty. *)
Definition merged_history (account_number : string) (w : world) : list txn_tuple :=
  sort_desc tuple_timestamp
    (fetched account_number "Deposited" w ++ fetched account_number "Withdrawn" w).

(** The history in the specification's words: all rows of the account,
    newest first, rows with equal timestamps in insertion order. *)
Definition history_newest_first_stable (account_number : string) (w : world) : list txn_tuple :=
  tuple_of <$> sort_desc txn_timestamp (rows_of account_number w).

(** The amount is above the balance. *)
Definition exceeds (amount : Z) (balance : pyfloat) : Prop :=
  int_le_float amount balance = false.

(** The failures a withdrawal can report. *)
Definition AccountNotFound : st_msg :=
  Error "Account does not exist. Please enter a valid account number.".
Definition InsufficientFunds : st_msg := Error "Insufficient funds".
Definition InvalidAmount : st_msg := Error "Invalid withdrawal amount".

(** The exception of a bound integer that does not fit. *)
Definition TooLargeForSQLite : exn :=
  OverflowError "Python int too large to convert to SQLite INTEGER".

(** The row a call logs. *)
Definition logged (w : world) (account_number transaction_desc : string) (amount : Z) : txn_row :=
  TxnRow (Z.of_nat (length (transactions w)) + 1) account_number transaction_desc
         (round_int amount) (clock w).

(** The ledger with one balance replaced. *)
Definition with_balance (w : world) (account_number : string) (balance : pyfloat)
  : gmap string account_row :=
  alter (fun r => AccountRow (row_name r) balance) account_number (accounts w).

(** ** The presentation layer

    One run of the script draws the page from the top: widgets return the
    values the user left in them, and a button returns [True] in the run
    its press started.  The values of the widgets are the inputs of a run.
    Of what a run draws, the status elements are recorded ([st_out]);
    titles, headers, the widgets themselves and the table of the history
    are not. *)

(** A value kept in [st.session_state]. *)
Inductive pyval :=
  | PyBool (b : bool)
  | PyStr (s : string)
  | PyNone.

#[global] Instance pyval_eq_dec : EqDecision pyval.
Proof. solve_decision. Defined.

(** Python's truth value. *)
Definition truthy (v : pyval) : bool :=
  match v with
  | PyBool b => b
  | PyStr s => negb (String.eqb s "")
  | PyNone => false
  end.

(** The database with its [users(username PRIMARY KEY, password)] table,
    and the session of the one user. *)
Record site := Site {
  bank : world;
  users : gmap string string;
  session_state : gmap string pyval
}.

(** The selected action of the banking page with the values of its
    widgets. *)
Inductive request :=
  | CreateNewAccount (name account_number : string) (initial_balance : Z)
  | DepositFunds (account_number : string) (amount : Z)
  | WithdrawAmount (account_number : string) (amount : Z)
  | BalanceEnquiry (account_number : string)
  | TransactionDetails (account_number : string).

(** The option of the radio on the entry page. *)
Inductive choice :=
  | Login
  | CreateUser.

(** The inputs of one run. *)
Record widgets := Widgets {
  radio : choice;
  username : string;
  password : string;
  form : request;
  button : bool
}.

(** A status element drawn by the entry page. *)
Definition say (x : st_msg) (s : site) : site :=
  Site (after (emit x) (bank s)) (users s) (session_state s).

(** A computation on the database, run within the site; an exception that
    escapes it ends the run, and what was committed before stays. *)
Definition within_bank {A} (m : M A) (s : site) : site :=
  Site (after m (bank s)) (users s) (session_state s).

(** [user_exists]. *)
Definition user_exists (name : string) (s : site) : bool :=
  match users s !! name with
  | Some _ => true
  | None => false
  end.

Section presentation.

(** [hashlib.sha256(...).hexdigest()] and the text Python's f-string gives
    for a balance are taken from outside. *)
Variable sha256_hexdigest : string -> string.
Variable format_balance : pyfloat -> string.

Definition hash_password (password : string) : string :=
  sha256_hexdigest password.

(** [login]: after [user_exists] the query for the password finds its row. *)
Definition login (username password : string) (button : bool) (s : site) : site :=
  if button then
    if negb (user_exists username s) then
      say (Error "Username does not exist. Please try again or create a new user.") s
    else
      match users s !! username with
      | Some hashed_password =>
          if negb (String.eqb hashed_password (hash_password password)) then
            say (Error "Invalid password. Please try again.") s
          else
            Site (bank s) (users s)
                 (<["current_page" := PyStr "Banking App"]>
                    (<["logged_in" := PyBool true]> (session_state s)))
      | None => s
      end
  else s.

(** [create_user]. *)
Definition create_user (new_username new_password : string) (button : bool) (s : site)
  : site :=
  if button then
    if user_exists new_username s then
      say (Warning "Username already exists. Please choose a different one.") s
    else
      say (Success "User created successfully. You can now login.")
          (Site (bank s) (<[new_username := hash_password new_password]> (users s))
                (session_state s))
  else s.

(** [banking_app]. *)
Definition banking_app (form : request) (button : bool) : M unit :=
  match form with
  | CreateNewAccount name account_number initial_balance =>
      if button then Bank.create_account name account_number initial_balance
      else ret tt
  | DepositFunds account_number amount =>
      if button then
        Bank.deposit account_number amount ;;
        st_success "Funds Deposited successfully"
      else ret tt
  | WithdrawAmount account_number amount =>
      if button then Bank.withdraw account_number amount
      else ret tt
  | BalanceEnquiry account_number =>
      if button then
        do balance_info <- Bank.balance_enquiry account_number;
        match balance_info with
        | Some (balance, name) =>
            st_success (String.append "Balance for "
                          (String.append name
                             (String.append "'s account: " (format_balance balance))))
        | None => ret tt
        end
      else ret tt
  | TransactionDetails account_number =>
      if button then
        do transactions <- Bank.transaction_details account_number;
        ret tt
      else ret tt
  end.

(** The three [if ... not in st.session_state] of the script. *)
Definition init_session (ss : gmap string pyval) : gmap string pyval :=
  let ss := match ss !! "logged_in" with
            | None => <["logged_in" := PyBool false]> ss
            | Some _ => ss
            end in
  let ss := match ss !! "current_page" with
            | None => <["current_page" := PyStr "Login"]> ss
            | Some _ => ss
            end in
  match ss !! "password_entered" with
  | None => <["password_entered" := PyNone]> ss
  | Some _ => ss
  end.

(** One run of the script, from the session defaults on; the lines before
    them draw the logo and create the tables if they do not exist, which
    changes nothing of a site.  The three keys are present once
    [init_session] has run. *)
Definition script (i : widgets) (s : site) : site :=
  let s := Site (bank s) (users s) (init_session (session_state s)) in
  if truthy (default PyNone (session_state s !! "logged_in")) then
    if decide (session_state s !! "current_page" = Some (PyStr "Banking App")) then
      within_bank (banking_app (form i) (button i)) s
    else s
  else
    match radio i with
    | Login => login (username i) (password i) (button i) s
    | CreateUser => create_user (username i) (password i) (button i) s
    end.

(** Runs one after the other, each at its time. *)
Fixpoint visits (runs : list (Z * widgets)) (s : site) : site :=
  match runs with
  | [] => s
  | (t, i) :: runs' =>
      visits runs' (script i (Site (at_time t (bank s)) (users s) (session_state s)))
  end.

End presentation.

(** A site nobody has used yet. *)
Definition new_site : site := Site empty_world ∅ ∅.

(** ** The log against the ledger *)

(** The integers of a form fit in 64 bits. *)
Definition request_in_int64 (f : request) : bool :=
  match f with
  | CreateNewAccount _ _ balance => in_int64 balance
  | DepositFunds _ amount | WithdrawAmount _ amount => in_int64 amount
  | BalanceEnquiry _ | TransactionDetails _ => true
  end.

(** What a logged row does to a balance, in the arithmetic of the program:
    a deposit adds its amount when that is positive, a withdrawal takes its
    amount. *)
Definition apply_row (x : pyfloat) (r : txn_row) : pyfloat :=
  if decide (txn_desc r = "Deposited") then
    (if 0 <? txn_amount r then fadd x (txn_amount r) else x)
  else if decide (txn_desc r = "Withdrawn") then fsub x (txn_amount r)
  else x.

(** The rows replayed in order. *)
Definition replay (x : pyfloat) (rows : list txn_row) : pyfloat :=
  foldl apply_row x rows.

(** What holds of every row the facade has logged: it is a deposit or a
    withdrawal of a positive amount, and its account is in the ledger. *)
Definition row_ok (ledger : gmap string account_row) (r : txn_row) : Prop :=
  (txn_desc r = "Deposited" \/ (txn_desc r = "Withdrawn" /\ 0 < txn_amount r))
  /\ is_Some (ledger !! txn_account_number r).

Definition log_ok (w : world) : Prop :=
  Forall (row_ok (accounts w)) (transactions w).

(** What one request can do to the ledger and the log of [w]: the ledger it
    leaves and the rows it appends.  A deposit or a withdrawal of an amount
    that does not fit in 64 bits changes the balance and is stopped by
    [OverflowError] before its row. *)
Inductive effect_of (w : world) : request -> gmap string account_row -> list txn_row -> Prop :=
  | eff_none f :
      effect_of w f (accounts w) []
  | eff_opened name account_number balance :
      accounts w !! account_number = None ->
      in_int64 balance = true ->
      effect_of w (CreateNewAccount name account_number balance)
                (<[account_number := AccountRow name (Fin (round_int balance))]> (accounts w)) []
  | eff_deposited account_number r amount :
      accounts w !! account_number = Some r ->
      0 < amount ->
      in_int64 amount = true ->
      effect_of w (DepositFunds account_number amount)
                (with_balance w account_number (fadd (row_balance r) (round_int amount)))
                [logged w account_number "Deposited" amount]
  | eff_deposited_unlogged account_number r amount :
      accounts w !! account_number = Some r ->
      0 < amount ->
      in_int64 amount = false ->
      effect_of w (DepositFunds account_number amount)
                (with_balance w account_number (fadd (row_balance r) (round_int amount)))
                []
  | eff_deposit_refused account_number r amount :
      accounts w !! account_number = Some r ->
      amount <= 0 ->
      in_int64 amount = true ->
      effect_of w (DepositFunds account_number amount) (accounts w)
                [logged w account_number "Deposited" amount]
  | eff_withdrawn account_number r amount :
      accounts w !! account_number = Some r ->
      0 < amount ->
      int_le_float amount (row_balance r) = true ->
      in_int64 amount = true ->
      effect_of w (WithdrawAmount account_number amount)
                (with_balance w account_number (fsub (row_balance r) (round_int amount)))
                [logged w account_number "Withdrawn" amount]
  | eff_withdrawn_unlogged account_number r amount :
      accounts w !! account_number = Some r ->
      0 < amount ->
      int_le_float amount (row_balance r) = true ->
      in_int64 amount = false ->
      effect_of w (WithdrawAmount account_number amount)
                (with_balance w account_number (fsub (row_balance r) (round_int amount)))
                [].

(** The request a call of the facade stands for. *)
Definition request_of (account_number : string) (c : call) : request :=
  match c with
  | Deposit amount => DepositFunds account_number amount
  | Withdraw amount => WithdrawAmount account_number amount
  end.

(** ** States of the session *)

(** Nobody is logged in: the flag is absent or [False]. *)
Definition logged_out (s : site) : Prop :=
  session_state s !! "logged_in" = None
  \/ session_state s !! "logged_in" = Some (PyBool false).

(** The session after a login. *)
Definition logged_in (s : site) : Prop :=
  session_state s !! "logged_in" = Some (PyBool true)
  /\ session_state s !! "current_page" = Some (PyStr "Banking App").

(** ** Worlds and inputs used in examples *)

(** Alice's account A1 opened with 100. *)
Definition alice_100 : world :=
  after (Bank.create_account "Alice" "A1" 100) empty_world.

(** An account opened with a negative balance. *)
Definition alice_overdrawn : world :=
  after (Bank.create_account "Alice" "A1" (-10)) empty_world.

(** Bob's account B7 opened with -3. *)
Definition bob_overdrawn : world :=
  after (Bank.create_account "Bob" "B7" (-3)) empty_world.


(** An account opened with 2^54. *)
Definition alice_2_54 : world :=
  after (Bank.create_account "Alice" "A1" (2 ^ 54)) empty_world.

(** An account opened with 2^53 - 1. *)
Definition alice_below_2_53 : world :=
  after (Bank.create_account "Alice" "A1" (2 ^ 53 - 1)) empty_world.

(** A withdrawal of 30 and then a deposit of 50 within one second. *)
Definition same_second : world :=
  after (Bank.deposit "A1" 50) (after (Bank.withdraw "A1" 30) (at_time 5 alice_100)).

(** The scenario of the specification: deposit 50, withdraw 30, then a
    refused withdrawal of 200. *)
Definition scenario : world :=
  after (Bank.withdraw "A1" 200)
    (at_time 30 (after (Bank.withdraw "A1" 30)
       (at_time 20 (after (Bank.deposit "A1" 50) (at_time 10 alice_100))))).

(** Stand-ins for the digest and for the text of a balance. *)
Definition toy_digest (password : string) : string := String.append "#" password.
Definition toy_format (balance : pyfloat) : string := "".

(** Alice registers, logs in, opens A1 with 100, deposits 50, withdraws 30,
    tries to deposit -5 and looks at her history. *)
Definition alice_visits : list (Z * widgets) :=
  [ (1, Widgets CreateUser "alice" "secret" (BalanceEnquiry "") true);
    (2, Widgets Login "alice" "secret" (BalanceEnquiry "") true);
    (3, Widgets Login "" "" (CreateNewAccount "Alice" "A1" 100) true);
    (4, Widgets Login "" "" (DepositFunds "A1" 50) true);
    (5, Widgets Login "" "" (WithdrawAmount "A1" 30) true);
    (6, Widgets Login "" "" (DepositFunds "A1" (-5)) true);
    (7, Widgets Login "" "" (TransactionDetails "A1") true) ].

(** * Properties *)

(** ** Rounding to binary64 *)

Lemma ulp_pos z : 0 < ulp z.
Proof. unfold ulp, ulp_exp. apply Z.pow_pos_nonneg; lia. Qed.

(** The shape of a rounding. *)
Lemma round_nat_cases (z : Z) :
  exists q r,
    z = q * ulp z + r /\ 0 <= r < ulp z
    /\ ((round_nat z = q * ulp z /\ (2 * r < ulp z \/ (2 * r = ulp z /\ Z.even q = true)))
        \/ (round_nat z = (q + 1) * ulp z
            /\ (ulp z < 2 * r \/ (2 * r = ulp z /\ Z.even q = false)))).
Proof.
  pose proof (ulp_pos z) as Hu.
  exists (z / ulp z), (z mod ulp z).
  split; [rewrite Z.mul_comm; apply Z.div_mod; lia |].
  split; [apply Z.mod_pos_bound; exact Hu |].
  unfold round_nat. cbv zeta.
  destruct (2 * (z mod ulp z) <? ulp z) eqn:H1.
  - apply Z.ltb_lt in H1. left. split; [reflexivity | left; exact H1].
  - apply Z.ltb_ge in H1. destruct (ulp z <? 2 * (z mod ulp z)) eqn:H2.
    + apply Z.ltb_lt in H2. right. split; [reflexivity | left; exact H2].
    + apply Z.ltb_ge in H2. destruct (Z.even (z / ulp z)) eqn:H3.
      * left. split; [reflexivity | right; split; [lia | reflexivity]].
      * right. split; [reflexivity | right; split; [lia | reflexivity]].
Qed.

Lemma ulp_eq z : ulp z = 2 ^ ulp_exp z.
Proof. reflexivity. Qed.

Lemma ulp_exp_nonneg z : 0 <= ulp_exp z.
Proof. unfold ulp_exp. lia. Qed.

Lemma ulp_exp_mono (a b : Z) : a <= b -> ulp_exp a <= ulp_exp b.
Proof. intros H. unfold ulp_exp. pose proof (Z.log2_le_mono a b H). lia. Qed.

(** A number lies below 2^53 units in the last place, and at or above 2^52
    of them when the unit is not 1. *)
Lemma below_ulp_span (z : Z) : 0 <= z -> z < 9007199254740992 * ulp z.
Proof.
  intros Hz. destruct (Z.eq_dec z 0) as [-> | Hne]; [reflexivity |].
  pose proof (Z.log2_spec z ltac:(lia)) as [_ Hhi].
  rewrite ulp_eq. change 9007199254740992 with (2 ^ 53).
  rewrite <- Z.pow_add_r by (pose proof (ulp_exp_nonneg z); lia).
  eapply Z.lt_le_trans; [exact Hhi |].
  apply Z.pow_le_mono_r; [lia |]. unfold ulp_exp. lia.
Qed.

Lemma above_ulp_span (z : Z) : 0 < ulp_exp z -> 4503599627370496 * ulp z <= z.
Proof.
  intros He. assert (Hz : 0 < z).
  { destruct (Z_lt_le_dec 0 z) as [H | H]; [exact H |].
    unfold ulp_exp in He. rewrite (Z.log2_nonpos z H) in He. lia. }
  pose proof (Z.log2_spec z Hz) as [Hlo _].
  rewrite ulp_eq. change 4503599627370496 with (2 ^ 52).
  rewrite <- Z.pow_add_r by lia.
  replace (52 + ulp_exp z) with (Z.log2 z) by (unfold ulp_exp in *; lia).
  exact Hlo.
Qed.

Lemma round_nat_span (z : Z) :
  0 <= z ->
  0 <= round_nat z <= 9007199254740992 * ulp z
  /\ (0 < ulp_exp z -> 4503599627370496 * ulp z <= round_nat z).
Proof.
  intros Hz. pose proof (ulp_pos z) as Hu. pose proof (below_ulp_span z Hz) as Hhi.
  destruct (round_nat_cases z) as (q & r & Hq & Hr & Hc).
  assert (Hq0 : 0 <= q) by nia.
  assert (Hq1 : q < 9007199254740992) by nia.
  split.
  - destruct Hc as [[-> _] | [-> _]]; nia.
  - intros He. pose proof (above_ulp_span z He) as Hlo.
    assert (4503599627370496 <= q) by nia.
    destruct Hc as [[-> _] | [-> _]]; nia.
Qed.

Lemma round_nat_mono (a b : Z) : 0 <= a -> a <= b -> round_nat a <= round_nat b.
Proof.
  intros Ha Hab.
  pose proof (ulp_exp_mono a b Hab) as He.
  destruct (round_nat_span a Ha) as [[_ Hahi] _].
  destruct (round_nat_span b ltac:(lia)) as [_ Hblo].
  destruct (Z.eq_dec (ulp_exp a) (ulp_exp b)) as [Heq | Hne].
  - assert (Hu : ulp a = ulp b) by (rewrite !ulp_eq, Heq; reflexivity).
    pose proof (ulp_pos b) as Hpos.
    destruct (round_nat_cases a) as (q1 & r1 & Hq1 & Hr1 & Hc1).
    destruct (round_nat_cases b) as (q2 & r2 & Hq2 & Hr2 & Hc2).
    rewrite Hu in *. set (u := ulp b) in *.
    assert (Hq : q1 <= q2) by nia.
    destruct (Z.eq_dec q1 q2) as [-> | Hlt].
    + assert (Hr : r1 <= r2) by nia.
      destruct Hc1 as [[-> C1] | [-> C1]]; destruct Hc2 as [[-> C2] | [-> C2]]; try nia.
      destruct C1 as [C1 | [C1 E1]]; destruct C2 as [C2 | [C2 E2]]; try lia.
      congruence.
    + assert (q1 + 1 <= q2) by lia.
      destruct Hc1 as [[-> _] | [-> _]]; destruct Hc2 as [[-> _] | [-> _]]; nia.
  - assert (Hlt : ulp_exp a + 1 <= ulp_exp b) by lia.
    assert (Hu : 2 * ulp a <= ulp b).
    { rewrite !ulp_eq. replace (2 * 2 ^ ulp_exp a) with (2 ^ (ulp_exp a + 1))
        by (rewrite Z.pow_add_r by (pose proof (ulp_exp_nonneg a); lia); lia).
      apply Z.pow_le_mono_r; lia. }
    specialize (Hblo ltac:(pose proof (ulp_exp_nonneg a); lia)).
    lia.
Qed.

Lemma round_nat_exact (z : Z) : 0 <= z <= 9007199254740992 -> round_nat z = z.
Proof.
  intros Hz. destruct (Z.eq_dec z 9007199254740992) as [-> | Hne]; [reflexivity |].
  assert (Hu : ulp z = 1).
  { unfold ulp, ulp_exp. destruct (Z.eq_dec z 0) as [-> | H0]; [reflexivity |].
    assert (Z.log2 z < 53) by (apply Z.log2_lt_pow2; lia).
    replace (Z.max 0 (Z.log2 z - 52)) with 0 by lia. reflexivity. }
  unfold round_nat. cbv zeta. rewrite Hu, Z.mod_1_r, Z.div_1_r.
  change (2 * 0 <? 1) with true. cbv iota. lia.
Qed.

Lemma round_int_exact (z : Z) :
  - 9007199254740992 <= z <= 9007199254740992 -> round_int z = z.
Proof.
  intros Hz. unfold round_int. destruct (z <? 0) eqn:H.
  - apply Z.ltb_lt in H. rewrite round_nat_exact by lia. lia.
  - apply Z.ltb_ge in H. apply round_nat_exact. lia.
Qed.

Lemma round_nat_nonneg (z : Z) : 0 <= z -> 0 <= round_nat z.
Proof. intros Hz. apply round_nat_span. exact Hz. Qed.

Lemma round_int_mono (a b : Z) : a <= b -> round_int a <= round_int b.
Proof.
  intros Hab. unfold round_int.
  destruct (a <? 0) eqn:Ha; destruct (b <? 0) eqn:Hb;
    try apply Z.ltb_lt in Ha; try apply Z.ltb_lt in Hb;
    try apply Z.ltb_ge in Ha; try apply Z.ltb_ge in Hb.
  - pose proof (round_nat_mono (- b) (- a) ltac:(lia) ltac:(lia)). lia.
  - pose proof (round_nat_nonneg (- a) ltac:(lia)). pose proof (round_nat_nonneg b Hb). lia.
  - lia.
  - apply round_nat_mono; lia.
Qed.

(** A multiple of a power of two that fits in 53 digits of it is its own
    rounding. *)
Lemma round_nat_fixed (m e : Z) :
  0 <= e -> 0 <= m <= 9007199254740992 -> round_nat (m * 2 ^ e) = m * 2 ^ e.
Proof.
  intros He Hm. set (y := m * 2 ^ e).
  assert (Hp : 0 < 2 ^ e) by (apply Z.pow_pos_nonneg; lia).
  assert (Hdiv : (ulp y | y)).
  { destruct (Z.eq_dec m 0) as [-> | Hm0]; [subst y; rewrite Z.mul_0_l; apply Z.divide_0_r |].
    destruct (Z.eq_dec m 9007199254740992) as [-> | Hmax].
    - subst y. change 9007199254740992 with (2 ^ 53). rewrite <- Z.pow_add_r by lia.
      unfold ulp, ulp_exp. rewrite Z.log2_pow2 by lia.
      replace (Z.max 0 (53 + e - 52)) with (1 + e) by lia.
      exists (2 ^ 52). rewrite <- Z.pow_add_r by lia. f_equal. lia.
    - assert (Hy : 0 < y) by (subst y; nia).
      assert (Hlog : Z.log2 y < 53 + e).
      { apply Z.log2_lt_pow2; [exact Hy |]. rewrite Z.pow_add_r by lia.
        change (2 ^ 53) with 9007199254740992. subst y. nia. }
      unfold ulp, ulp_exp. set (k := Z.max 0 (Z.log2 y - 52)).
      assert (Hk : 0 <= k <= e) by (subst k; lia).
      exists (m * 2 ^ (e - k)). subst y.
      rewrite <- Z.mul_assoc, <- Z.pow_add_r by lia. do 2 f_equal. lia. }
  pose proof (ulp_pos y) as Hu.
  unfold round_nat. cbv zeta.
  apply Z.mod_divide in Hdiv; [| lia]. rewrite Hdiv.
  change (2 * 0) with 0.
  replace (0 <? ulp y) with true by (symmetry; apply Z.ltb_lt; exact Hu).
  pose proof (Z.div_mod y (ulp y) ltac:(lia)) as Hdm. rewrite Hdiv in Hdm.
  rewrite Z.mul_comm. lia.
Qed.

Lemma round_nat_idem (z : Z) : 0 <= z -> round_nat (round_nat z) = round_nat z.
Proof.
  intros Hz. pose proof (ulp_pos z) as Hu. pose proof (below_ulp_span z Hz) as Hhi.
  destruct (round_nat_cases z) as (q & r & Hq & Hr & Hc).
  assert (Hq0 : 0 <= q) by nia.
  assert (Hq1 : q < 9007199254740992) by nia.
  rewrite ulp_eq in Hc.
  destruct Hc as [[-> _] | [-> _]]; apply round_nat_fixed;
    try apply ulp_exp_nonneg; lia.
Qed.

Lemma round_nat_0 : round_nat 0 = 0.
Proof. reflexivity. Qed.

Lemma round_int_of_nonneg (z : Z) : 0 <= z -> round_int z = round_nat z.
Proof.
  intros H. unfold round_int.
  replace (z <? 0) with false by (symmetry; apply Z.ltb_ge; exact H). reflexivity.
Qed.

Lemma round_int_opp (z : Z) : round_int (- z) = - round_int z.
Proof.
  destruct (Z.lt_trichotomy z 0) as [H | [-> | H]].
  - rewrite (round_int_of_nonneg (- z)) by lia. unfold round_int.
    replace (z <? 0) with true by (symmetry; apply Z.ltb_lt; exact H). lia.
  - reflexivity.
  - rewrite (round_int_of_nonneg z) by lia. unfold round_int.
    replace (- z <? 0) with true by (symmetry; apply Z.ltb_lt; lia).
    rewrite Z.opp_involutive. reflexivity.
Qed.

Lemma round_int_idem (z : Z) : round_int (round_int z) = round_int z.
Proof.
  assert (Hpos : forall a, 0 <= a -> round_int (round_int a) = round_int a).
  { intros a Ha. rewrite (round_int_of_nonneg a Ha).
    rewrite round_int_of_nonneg by (apply round_nat_nonneg; exact Ha).
    apply round_nat_idem. exact Ha. }
  destruct (Z_lt_le_dec z 0) as [H | H]; [| apply Hpos; exact H].
  replace z with (- (- z)) by lia. assert (Ha : 0 < - z) by lia.
  revert Ha. generalize (- z). intros a Ha. rewrite (round_int_opp a), (round_int_opp (round_int a)), Hpos by lia.
  reflexivity.
Qed.

Lemma round_int_nonneg (z : Z) : 0 <= z -> 0 <= round_int z.
Proof. intros H. rewrite round_int_of_nonneg by exact H. apply round_nat_nonneg. exact H. Qed.

Lemma round_int_pos (z : Z) : 0 < z -> 0 < round_int z.
Proof.
  intros H. pose proof (round_int_mono 1 z ltac:(lia)) as Hm.
  rewrite (round_int_exact 1) in Hm by lia. lia.
Qed.

Lemma round_int_nonpos (z : Z) : z <= 0 -> round_int z <= 0.
Proof.
  intros H. pose proof (round_int_mono z 0 H) as Hm.
  rewrite (round_int_exact 0) in Hm by lia. exact Hm.
Qed.

Lemma huge_large : 9223372036854775808 < huge.
Proof. reflexivity. Qed.

(** An integer of 64 bits rounds within 64 bits, far from overflow. *)
Lemma in_int64_bounds (z : Z) :
  in_int64 z = true -> - 9223372036854775808 <= z < 9223372036854775808.
Proof.
  unfold in_int64. change (2 ^ 63) with 9223372036854775808.
  intros H. apply andb_true_iff in H as [H1 H2].
  apply Z.leb_le in H1. apply Z.ltb_lt in H2. lia.
Qed.

Lemma in_int64_of_bounds (z : Z) :
  - 9223372036854775808 <= z < 9223372036854775808 -> in_int64 z = true.
Proof.
  unfold in_int64. change (2 ^ 63) with 9223372036854775808.
  intros H. apply andb_true_iff. split; [apply Z.leb_le | apply Z.ltb_lt]; lia.
Qed.

Lemma round_int_int64 (z : Z) :
  in_int64 z = true ->
  - 9223372036854775808 <= round_int z <= 9223372036854775808.
Proof.
  intros H. apply in_int64_bounds in H.
  pose proof (round_int_mono z 9223372036854775808 ltac:(lia)) as Hhi.
  pose proof (round_int_mono (- 9223372036854775808) z ltac:(lia)) as Hlo.
  change (round_int 9223372036854775808) with 9223372036854775808 in Hhi.
  change (round_int (- 9223372036854775808)) with (- 9223372036854775808) in Hlo.
  lia.
Qed.

Lemma to_float_fin (z : Z) : - huge < round_int z < huge -> to_float z = Fin (round_int z).
Proof.
  intros H. unfold to_float. cbv zeta.
  replace (huge <=? round_int z) with false by (symmetry; apply Z.leb_gt; lia).
  replace (round_int z <=? - huge) with false by (symmetry; apply Z.leb_gt; lia).
  reflexivity.
Qed.

Lemma to_float_exact (z : Z) :
  - 9007199254740992 <= z <= 9007199254740992 -> to_float z = Fin z.
Proof.
  intros H. pose proof huge_large. rewrite to_float_fin; rewrite round_int_exact by exact H.
  - reflexivity.
  - lia.
Qed.

Lemma to_float_double (z : Z) : is_double (to_float z).
Proof.
  unfold to_float. cbv zeta.
  destruct (huge <=? round_int z) eqn:H1; [exact I |].
  destruct (round_int z <=? - huge) eqn:H2; [exact I |].
  apply Z.leb_gt in H1, H2. split; [apply round_int_idem | lia].
Qed.

Lemma to_float_of_double (z : Z) : is_double (Fin z) -> to_float z = Fin z.
Proof. intros [H1 H2]. rewrite to_float_fin; rewrite H1; [reflexivity | exact H2]. Qed.

Lemma fle_refl (x : pyfloat) : fle x x.
Proof. destruct x; cbn; lia. Qed.

Lemma fle_trans (x y z : pyfloat) : fle x y -> fle y z -> fle x z.
Proof. destruct x, y, z; cbn; try tauto; lia. Qed.

Lemma to_float_mono (a b : Z) : a <= b -> fle (to_float a) (to_float b).
Proof.
  intros H. pose proof (round_int_mono a b H) as Hm. pose proof huge_large as Hh.
  unfold to_float. cbv zeta.
  destruct (huge <=? round_int a) eqn:A1; destruct (huge <=? round_int b) eqn:B1;
    destruct (round_int a <=? - huge) eqn:A2; destruct (round_int b <=? - huge) eqn:B2;
    try apply Z.leb_le in A1; try apply Z.leb_le in B1;
    try apply Z.leb_le in A2; try apply Z.leb_le in B2;
    try apply Z.leb_gt in A1; try apply Z.leb_gt in B1;
    try apply Z.leb_gt in A2; try apply Z.leb_gt in B2;
    cbn; try exact I; lia.
Qed.

Lemma is_double_fadd (x : pyfloat) (y : Z) : is_double x -> is_double (fadd x y).
Proof. destruct x; intros H; unfold fadd; [apply to_float_double | exact I | exact I]. Qed.

Lemma is_double_fsub (x : pyfloat) (y : Z) : is_double x -> is_double (fsub x y).
Proof. destruct x; intros H; unfold fsub; [apply to_float_double | exact I | exact I]. Qed.

(** Adding a float that is not negative does not lower a float, taking one
    does not raise it. *)
Lemma fadd_not_lower (x : pyfloat) (y : Z) : is_double x -> 0 <= y -> fle x (fadd x y).
Proof.
  destruct x as [b | |]; intros Hd Hy; unfold fadd; [| exact I | exact I].
  rewrite <- (to_float_of_double b Hd) at 1. apply to_float_mono. lia.
Qed.

Lemma fsub_not_higher (x : pyfloat) (y : Z) : is_double x -> 0 <= y -> fle (fsub x y) x.
Proof.
  destruct x as [b | |]; intros Hd Hy; unfold fsub; [| exact I | exact I].
  rewrite <- (to_float_of_double b Hd) at 1. apply to_float_mono. lia.
Qed.

Lemma fadd_nonneg (x : pyfloat) (y : Z) : fle (Fin 0) x -> 0 <= y -> fle (Fin 0) (fadd x y).
Proof.
  destruct x as [b | |]; intros Hx Hy; unfold fadd; [| exact I | exact Hx].
  cbn in Hx. rewrite <- (to_float_exact 0) by lia. apply to_float_mono. lia.
Qed.

(** What is withdrawn is at most the balance, also after rounding. *)
Lemma round_le_double (a b : Z) : is_double (Fin b) -> a <= b -> round_int a <= b.
Proof. intros [Hb _] Hab. rewrite <- Hb. apply round_int_mono. exact Hab. Qed.

Lemma fsub_nonneg (x : pyfloat) (a : Z) :
  is_double x -> int_le_float a x = true -> fle (Fin 0) (fsub x (round_int a)).
Proof.
  destruct x as [b | |]; intros Hd Ha; unfold fsub; [| exact I | discriminate].
  cbn in Ha. apply Z.leb_le in Ha. pose proof (round_le_double a b Hd Ha).
  rewrite <- (to_float_exact 0) by lia. apply to_float_mono. lia.
Qed.

Lemma fadd_exact (b y : Z) :
  - 9007199254740992 <= b + y <= 9007199254740992 -> fadd (Fin b) y = Fin (b + y).
Proof. intros H. unfold fadd. apply to_float_exact. exact H. Qed.

Lemma fsub_exact (b y : Z) :
  - 9007199254740992 <= b - y <= 9007199254740992 -> fsub (Fin b) y = Fin (b - y).
Proof. intros H. unfold fsub. apply to_float_exact. exact H. Qed.

(** ** What each call of the facade does, case by case *)

Ltac run :=
  unfold Bank.deposit, Bank.withdraw, Bank.create_account, Bank.balance_enquiry,
    Bank.transaction_details, Bank.get_account, Account.deposit, Account.withdraw,
    Account.load_account_info, Account.add_transaction, Account.__init__,
    Account.balance_enquiry, account_exists, try_except, bind, ret, raise,
    select_account, select_name_balance, select_transactions_desc, insert_account,
    update_balance, insert_transaction, st_success, st_warning, st_error, emit;
  cbn.

Lemma huge_pos : 0 < huge.
Proof. reflexivity. Qed.

Lemma bind_int_ok (z : Z) (w : world) : in_int64 z = true -> bind_int z w = (Ret z, w).
Proof. intros H. unfold bind_int. rewrite H. reflexivity. Qed.

Lemma bind_int_overflow (z : Z) (w : world) :
  in_int64 z = false -> bind_int z w = (Raise TooLargeForSQLite, w).
Proof. intros H. unfold bind_int. rewrite H. reflexivity. Qed.

Lemma float_of_int_finite (z : Z) (w : world) :
  - huge < round_int z < huge -> float_of_int z w = (Ret (round_int z), w).
Proof.
  intros H. unfold float_of_int. cbv zeta.
  replace (huge <=? round_int z) with false by (symmetry; apply Z.leb_gt; lia).
  replace (round_int z <=? - huge) with false by (symmetry; apply Z.leb_gt; lia).
  reflexivity.
Qed.

Lemma float_of_int_overflow (z : Z) (w : world) :
  huge <= round_int z ->
  float_of_int z w = (Raise (OverflowError "int too large to convert to float"), w).
Proof.
  intros H. unfold float_of_int. cbv zeta.
  replace (huge <=? round_int z) with true by (symmetry; apply Z.leb_le; lia).
  reflexivity.
Qed.

Lemma int64_finite (z : Z) : in_int64 z = true -> - huge < round_int z < huge.
Proof. intros H. pose proof (round_int_int64 z H). pose proof huge_large. lia. Qed.

Lemma insert_transaction_ok (a d : string) (x : Z) (w : world) :
  in_int64 x = true ->
  insert_transaction a d x w
  = (Ret tt, World (accounts w) (transactions w ++ [logged w a d x]) (clock w) (st_out w)).
Proof. intros H. unfold insert_transaction, bind. rewrite (bind_int_ok _ _ H). reflexivity. Qed.

Lemma insert_transaction_overflow (a d : string) (x : Z) (w : world) :
  in_int64 x = false -> insert_transaction a d x w = (Raise TooLargeForSQLite, w).
Proof.
  intros H. unfold insert_transaction, bind. rewrite (bind_int_overflow _ _ H). reflexivity.
Qed.

Lemma get_account_found (w : world) (account_number : string) (r : account_row) :
  accounts w !! account_number = Some r ->
  Bank.get_account account_number w
  = (Ret (Some (Account.Make account_number (row_name r) (row_balance r))), w).
Proof. intros H. run. rewrite H. cbn. rewrite H. reflexivity. Qed.

Lemma get_account_missing (w : world) (account_number : string) :
  accounts w !! account_number = None ->
  Bank.get_account account_number w = (Ret None, w).
Proof. intros H. run. rewrite H. reflexivity. Qed.

Lemma deposit_missing (w : world) (account_number : string) (amount : Z) :
  accounts w !! account_number = None ->
  Bank.deposit account_number amount w
  = (Ret tt, World (accounts w) (transactions w) (clock w) (st_out w ++ [AccountNotFound])).
Proof.
  intros H. unfold Bank.deposit, bind. rewrite (get_account_missing _ _ H). reflexivity.
Qed.

(** A deposit on an existing account, in full: the float of the amount,
    the update, then the row. *)
Lemma deposit_found (w : world) (account_number : string) (r : account_row) (amount : Z) :
  accounts w !! account_number = Some r ->
  Bank.deposit account_number amount w
  = if 0 <? amount then
      match float_of_int amount w with
      | (Ret y, _) =>
          insert_transaction account_number "Deposited" amount
            (World (with_balance w account_number (fadd (row_balance r) y))
                   (transactions w) (clock w) (st_out w))
      | (Raise e, _) => (Raise e, w)
      end
    else
      insert_transaction account_number "Deposited" amount
        (World (accounts w) (transactions w) (clock w)
               (st_out w ++ [Warning "Invalid deposit amount"])).
Proof.
  intros H. unfold Bank.deposit, bind. rewrite (get_account_found _ _ _ H).
  unfold Account.deposit, Account.add_transaction. destruct (0 <? amount).
  - unfold bind, float_of_int. cbv zeta.
    destruct ((huge <=? round_int amount) || (round_int amount <=? - huge)); reflexivity.
  - reflexivity.
Qed.

Lemma deposit_valid (w : world) (account_number : string) (r : account_row) (amount : Z) :
  accounts w !! account_number = Some r ->
  0 < amount ->
  in_int64 amount = true ->
  Bank.deposit account_number amount w
  = (Ret tt, World (with_balance w account_number (fadd (row_balance r) (round_int amount)))
                   (transactions w ++ [logged w account_number "Deposited" amount])
                   (clock w) (st_out w)).
Proof.
  intros H Hpos Hin. rewrite (deposit_found _ _ _ _ H).
  apply Z.ltb_lt in Hpos. rewrite Hpos.
  rewrite (float_of_int_finite _ _ (int64_finite _ Hin)).
  rewrite (insert_transaction_ok _ _ _ _ Hin). reflexivity.
Qed.

Lemma deposit_unlogged (w : world) (account_number : string) (r : account_row) (amount : Z) :
  accounts w !! account_number = Some r ->
  0 < amount ->
  in_int64 amount = false ->
  round_int amount < huge ->
  Bank.deposit account_number amount w
  = (Raise TooLargeForSQLite,
     World (with_balance w account_number (fadd (row_balance r) (round_int amount)))
           (transactions w) (clock w) (st_out w)).
Proof.
  intros H Hpos Hin Hfin. rewrite (deposit_found _ _ _ _ H).
  pose proof (round_int_pos _ Hpos) as Hr. pose proof huge_pos.
  apply Z.ltb_lt in Hpos. rewrite Hpos.
  rewrite float_of_int_finite by lia.
  rewrite (insert_transaction_overflow _ _ _ _ Hin). reflexivity.
Qed.

Lemma deposit_float_overflow (w : world) (account_number : string) (r : account_row)
    (amount : Z) :
  accounts w !! account_number = Some r ->
  0 < amount ->
  huge <= round_int amount ->
  Bank.deposit account_number amount w
  = (Raise (OverflowError "int too large to convert to float"), w).
Proof.
  intros H Hpos Hbig. rewrite (deposit_found _ _ _ _ H).
  apply Z.ltb_lt in Hpos. rewrite Hpos.
  rewrite (float_of_int_overflow _ _ Hbig). reflexivity.
Qed.

Lemma deposit_invalid (w : world) (account_number : string) (r : account_row) (amount : Z) :
  accounts w !! account_number = Some r ->
  amount <= 0 ->
  in_int64 amount = true ->
  Bank.deposit account_number amount w
  = (Ret tt, World (accounts w)
                   (transactions w ++ [logged w account_number "Deposited" amount])
                   (clock w) (st_out w ++ [Warning "Invalid deposit amount"])).
Proof.
  intros H Hle Hin. rewrite (deposit_found _ _ _ _ H).
  apply Z.ltb_ge in Hle. rewrite Hle.
  rewrite (insert_transaction_ok _ _ _ _ Hin). reflexivity.
Qed.

Lemma deposit_invalid_unlogged (w : world) (account_number : string) (r : account_row)
    (amount : Z) :
  accounts w !! account_number = Some r ->
  amount <= 0 ->
  in_int64 amount = false ->
  Bank.deposit account_number amount w
  = (Raise TooLargeForSQLite,
     World (accounts w) (transactions w) (clock w)
           (st_out w ++ [Warning "Invalid deposit amount"])).
Proof.
  intros H Hle Hin. rewrite (deposit_found _ _ _ _ H).
  apply Z.ltb_ge in Hle. rewrite Hle.
  rewrite (insert_transaction_overflow _ _ _ _ Hin). reflexivity.
Qed.

Lemma withdraw_missing (w : world) (account_number : string) (amount : Z) :
  accounts w !! account_number = None ->
  Bank.withdraw account_number amount w
  = (Ret tt, World (accounts w) (transactions w) (clock w) (st_out w ++ [AccountNotFound])).
Proof.
  intros H. unfold Bank.withdraw, bind. rewrite (get_account_missing _ _ H). reflexivity.
Qed.

(** [Account.withdraw] raises unless [0 < amount <= balance]; the message
    depends on the sign of the amount alone. *)
Lemma account_withdraw_raises (self : Account.t) (amount : Z) (w : world) :
  ~ (0 < amount /\ int_le_float amount (Account._balance self) = true) ->
  Account.withdraw self amount w
  = (Raise (InsufficientFundsError
              (if 0 <? amount then "Insufficient funds" else "Invalid withdrawal amount")), w).
Proof.
  intros Hno. unfold Account.withdraw.
  destruct (int_le_float amount (Account._balance self)) eqn:Hle;
    destruct (0 <? amount) eqn:Hpos; try reflexivity.
  apply Z.ltb_lt in Hpos. tauto.
Qed.

(** A withdrawal that passes the guard, in full. *)
Lemma withdraw_found (w : world) (account_number : string) (r : account_row) (amount : Z) :
  accounts w !! account_number = Some r ->
  0 < amount ->
  int_le_float amount (row_balance r) = true ->
  Bank.withdraw account_number amount w
  = match float_of_int amount w with
    | (Ret y, _) =>
        match insert_transaction account_number "Withdrawn" amount
                (World (with_balance w account_number (fsub (row_balance r) y))
                       (transactions w) (clock w) (st_out w)) with
        | (Ret _, w') =>
            (Ret tt, World (accounts w') (transactions w') (clock w')
                           (st_out w' ++ [Success "Amount withdrawn successfully"]))
        | (Raise e, w') => (Raise e, w')
        end
    | (Raise e, _) => (Raise e, w)
    end.
Proof.
  intros H Hpos Hle. unfold Bank.withdraw, bind. rewrite (get_account_found _ _ _ H).
  unfold try_except, bind, Account.withdraw, Account.add_transaction. cbn [Account._balance].
  apply Z.ltb_lt in Hpos. rewrite Hle, Hpos. cbn [andb].
  unfold bind, float_of_int. cbv zeta.
  destruct ((huge <=? round_int amount) || (round_int amount <=? - huge)).
  - reflexivity.
  - cbn. unfold insert_transaction, bind, bind_int.
    destruct (in_int64 amount); reflexivity.
Qed.

Lemma withdraw_valid (w : world) (account_number : string) (r : account_row) (amount : Z) :
  accounts w !! account_number = Some r ->
  0 < amount ->
  int_le_float amount (row_balance r) = true ->
  in_int64 amount = true ->
  Bank.withdraw account_number amount w
  = (Ret tt, World (with_balance w account_number (fsub (row_balance r) (round_int amount)))
                   (transactions w ++ [logged w account_number "Withdrawn" amount])
                   (clock w) (st_out w ++ [Success "Amount withdrawn successfully"])).
Proof.
  intros H Hpos Hle Hin. rewrite (withdraw_found _ _ _ _ H Hpos Hle).
  rewrite (float_of_int_finite _ _ (int64_finite _ Hin)).
  rewrite (insert_transaction_ok _ _ _ _ Hin). reflexivity.
Qed.

Lemma withdraw_unlogged (w : world) (account_number : string) (r : account_row) (amount : Z) :
  accounts w !! account_number = Some r ->
  0 < amount ->
  int_le_float amount (row_balance r) = true ->
  in_int64 amount = false ->
  round_int amount < huge ->
  Bank.withdraw account_number amount w
  = (Raise TooLargeForSQLite,
     World (with_balance w account_number (fsub (row_balance r) (round_int amount)))
           (transactions w) (clock w) (st_out w)).
Proof.
  intros H Hpos Hle Hin Hfin. rewrite (withdraw_found _ _ _ _ H Hpos Hle).
  pose proof (round_int_pos _ Hpos) as Hr. pose proof huge_pos.
  rewrite float_of_int_finite by lia.
  rewrite (insert_transaction_overflow _ _ _ _ Hin). reflexivity.
Qed.

Lemma withdraw_float_overflow (w : world) (account_number : string) (r : account_row)
    (amount : Z) :
  accounts w !! account_number = Some r ->
  0 < amount ->
  int_le_float amount (row_balance r) = true ->
  huge <= round_int amount ->
  Bank.withdraw account_number amount w
  = (Raise (OverflowError "int too large to convert to float"), w).
Proof.
  intros H Hpos Hle Hbig. rewrite (withdraw_found _ _ _ _ H Hpos Hle).
  rewrite (float_of_int_overflow _ _ Hbig). reflexivity.
Qed.

Lemma withdraw_refused (w : world) (account_number : string) (r : account_row) (amount : Z) :
  accounts w !! account_number = Some r ->
  ~ (0 < amount /\ int_le_float amount (row_balance r) = true) ->
  Bank.withdraw account_number amount w
  = (Ret tt, World (accounts w) (transactions w) (clock w)
                   (st_out w ++ [if 0 <? amount then InsufficientFunds else InvalidAmount])).
Proof.
  intros H Hno. unfold Bank.withdraw, bind. rewrite (get_account_found _ _ _ H).
  unfold try_except, bind. rewrite account_withdraw_raises by exact Hno.
  destruct (0 <? amount); reflexivity.
Qed.

Lemma create_account_fresh (w : world) (name account_number : string) (initial_balance : Z) :
  accounts w !! account_number = None ->
  in_int64 initial_balance = true ->
  Bank.create_account name account_number initial_balance w
  = (Ret tt,
     World (<[account_number := AccountRow name (Fin (round_int initial_balance))]> (accounts w))
           (transactions w) (clock w)
           (st_out w ++ [Success "Account created successfully."])).
Proof.
  intros H Hin. unfold Bank.create_account, account_exists, select_account, bind, ret.
  rewrite H. unfold insert_account, bind. rewrite (bind_int_ok _ _ Hin). reflexivity.
Qed.

Lemma create_account_overflow (w : world) (name account_number : string)
    (initial_balance : Z) :
  accounts w !! account_number = None ->
  in_int64 initial_balance = false ->
  Bank.create_account name account_number initial_balance w = (Raise TooLargeForSQLite, w).
Proof.
  intros H Hin. unfold Bank.create_account, account_exists, select_account, bind, ret.
  rewrite H. unfold insert_account, bind. rewrite (bind_int_overflow _ _ Hin). reflexivity.
Qed.

Lemma create_account_taken (w : world) (name account_number : string) (initial_balance : Z)
    (r : account_row) :
  accounts w !! account_number = Some r ->
  Bank.create_account name account_number initial_balance w
  = (Ret tt, World (accounts w) (transactions w) (clock w)
       (st_out w ++ [Warning "Account already exists. Please choose a different account number."])).
Proof. intros H. run. rewrite H. reflexivity. Qed.

Lemma lookup_with_balance (w : world) (account_number : string) (r : account_row)
    (balance : pyfloat) :
  accounts w !! account_number = Some r ->
  with_balance w account_number balance !! account_number = Some (AccountRow (row_name r) balance).
Proof. intros H. unfold with_balance. rewrite lookup_alter_eq, H. reflexivity. Qed.

Lemma lookup_with_balance_other (w : world) (a b : string) (balance : pyfloat) :
  a <> b -> with_balance w a balance !! b = accounts w !! b.
Proof. intros H. unfold with_balance. apply lookup_alter_ne. exact H. Qed.

Lemma balance_enquiry_found (w : world) (account_number : string) (r : account_row) :
  accounts w !! account_number = Some r ->
  Bank.balance_enquiry account_number w = (Ret (Some (row_balance r, row_name r)), w).
Proof.
  intros H. unfold Bank.balance_enquiry, bind. rewrite (get_account_found _ _ _ H).
  reflexivity.
Qed.

Lemma balance_enquiry_missing (w : world) (account_number : string) :
  accounts w !! account_number = None ->
  Bank.balance_enquiry account_number w
  = (Ret None, World (accounts w) (transactions w) (clock w)
                     (st_out w ++ [Warning "Account not found"])).
Proof.
  intros H. unfold Bank.balance_enquiry, bind. rewrite (get_account_missing _ _ H).
  reflexivity.
Qed.

Lemma world_eta (w : world) :
  w = World (accounts w) (transactions w ++ []) (clock w) (st_out w ++ []).
Proof. destruct w; cbn. rewrite !app_nil_r. reflexivity. Qed.

(** Every outcome of a deposit or a withdrawal is one of the effects. *)
Lemma perform_effect (account_number : string) (c : call) (w : world) :
  exists o ledger rows msgs,
    perform account_number c w
    = (o, World ledger (transactions w ++ rows) (clock w) (st_out w ++ msgs))
    /\ effect_of w (request_of account_number c) ledger rows.
Proof.
  destruct c as [x | x]; cbn [perform request_of];
    (destruct (accounts w !! account_number) as [r |] eqn:H;
     [| eexists _, (accounts w), [], [_]; rewrite app_nil_r;
        split; [first [apply (deposit_missing _ _ _ H) | apply (withdraw_missing _ _ _ H)]
               | constructor]]).
  - destruct (Z_lt_le_dec 0 x) as [Hpos | Hle]; destruct (in_int64 x) eqn:Hin.
    + eexists _, _, [_], []. rewrite app_nil_r.
      split; [apply (deposit_valid _ _ _ _ H Hpos Hin) | econstructor; eassumption].
    + destruct (Z_lt_le_dec (round_int x) huge) as [Hfin | Hbig].
      * eexists _, _, [], []. rewrite !app_nil_r.
        split; [apply (deposit_unlogged _ _ _ _ H Hpos Hin Hfin) |].
        eapply eff_deposited_unlogged; eassumption.
      * eexists _, (accounts w), [], [].
        split; [rewrite (deposit_float_overflow _ _ _ _ H Hpos Hbig); f_equal; apply world_eta
               | constructor].
    + eexists _, (accounts w), [_], [_].
      split; [apply (deposit_invalid _ _ _ _ H Hle Hin) | econstructor; eassumption].
    + eexists _, (accounts w), [], [_]. rewrite app_nil_r.
      split; [apply (deposit_invalid_unlogged _ _ _ _ H Hle Hin) | constructor].
  - destruct (Z_lt_le_dec 0 x) as [Hpos | Hle];
      [destruct (int_le_float x (row_balance r)) eqn:Hfit |].
    + destruct (in_int64 x) eqn:Hin.
      * eexists _, _, [_], [_].
        split; [apply (withdraw_valid _ _ _ _ H Hpos Hfit Hin) | econstructor; eassumption].
      * destruct (Z_lt_le_dec (round_int x) huge) as [Hfin | Hbig].
        -- eexists _, _, [], []. rewrite !app_nil_r.
           split; [apply (withdraw_unlogged _ _ _ _ H Hpos Hfit Hin Hfin) |].
           eapply eff_withdrawn_unlogged; eassumption.
        -- eexists _, (accounts w), [], [].
           split; [rewrite (withdraw_float_overflow _ _ _ _ H Hpos Hfit Hbig); f_equal;
                   apply world_eta
                  | constructor].
    + eexists _, (accounts w), [], [_]. rewrite app_nil_r.
      split; [apply (withdraw_refused _ _ _ _ H) | constructor].
      intros [_ Hc]. congruence.
    + eexists _, (accounts w), [], [_]. rewrite app_nil_r.
      split; [apply (withdraw_refused _ _ _ _ H) | constructor].
      intros [Hc _]. lia.
Qed.

Lemma create_account_effect (name account_number : string) (balance : Z) (w : world) :
  exists o ledger msgs,
    Bank.create_account name account_number balance w
    = (o, World ledger (transactions w ++ []) (clock w) (st_out w ++ msgs))
    /\ effect_of w (CreateNewAccount name account_number balance) ledger [].
Proof.
  destruct (accounts w !! account_number) as [r |] eqn:H.
  - eexists _, (accounts w), [_]. rewrite app_nil_r.
    split; [apply (create_account_taken _ _ _ _ _ H) | constructor].
  - destruct (in_int64 balance) eqn:Hin.
    + eexists _, _, [_]. rewrite app_nil_r.
      split; [apply (create_account_fresh _ _ _ _ H Hin) | constructor; assumption].
    + eexists _, (accounts w), [].
      split; [rewrite (create_account_overflow _ _ _ _ H Hin); f_equal; apply world_eta
             | constructor].
Qed.

(** ** Deposits *)




(** ** Withdrawals *)

(** C2, as the code has it: for every existing account, a withdrawal with
    [0 < amount <= balance] and [amount < 2^63] succeeds, leaves the
    difference the program computes in binary64 and appends one "Withdrawn"
    row with the amount as the REAL column keeps it; when the balance is at
    most 2^53 that is the old balance minus the amount, and the row has the
    amount itself.  A withdrawal with [amount > balance] raises
    [InsufficientFundsError] inside the facade, is reported as a failure
    and leaves the balance and the log unchanged; the failure reported is
    insufficient funds when the amount is > 0, and an invalid amount
    otherwise. *)
Theorem withdraw_within_balance_or_refused
    (w : world) (account_number : string) (r : account_row) (amount : Z) :
  accounts w !! account_number = Some r ->
  let w' := after (Bank.withdraw account_number amount) w in
  (0 < amount < 2 ^ 63 -> int_le_float amount (row_balance r) = true ->
     st_out w' = st_out w ++ [Success "Amount withdrawn successfully"]
     /\ result (Bank.balance_enquiry account_number) w'
        = Ret (Some (fsub (row_balance r) (round_int amount), row_name r))
     /\ transactions w'
        = transactions w
          ++ [TxnRow (Z.of_nat (length (transactions w)) + 1)
                     account_number "Withdrawn" (round_int amount) (clock w)])
  /\ (forall b, row_balance r = Fin b -> 0 < amount <= b -> b <= 2 ^ 53 ->
        st_out w' = st_out w ++ [Success "Amount withdrawn successfully"]
        /\ result (Bank.balance_enquiry account_number) w'
           = Ret (Some (Fin (b - amount), row_name r))
        /\ transactions w'
           = transactions w
             ++ [TxnRow (Z.of_nat (length (transactions w)) + 1)
                        account_number "Withdrawn" amount (clock w)])
  /\ (exceeds amount (row_balance r) ->
      result (Account.withdraw
                (Account.Make account_number (row_name r) (row_balance r)) amount) w
      = Raise (InsufficientFundsError
                 (if 0 <? amount then "Insufficient funds" else "Invalid withdrawal amount"))
      /\ accounts w' = accounts w
      /\ transactions w' = transactions w
      /\ result (Bank.balance_enquiry account_number) w'
         = Ret (Some (row_balance r, row_name r)))
  /\ (exceeds amount (row_balance r) -> 0 < amount ->
      st_out w' = st_out w ++ [InsufficientFunds])
  /\ (exceeds amount (row_balance r) -> amount <= 0 ->
      st_out w' = st_out w ++ [InvalidAmount]).
Proof.
  intros H w'. subst w'. unfold after, result, exceeds.
  change (2 ^ 63) with 9223372036854775808. change (2 ^ 53) with 9007199254740992.
  assert (Hok : forall (Hpos : 0 < amount < 9223372036854775808)
                  (Hle : int_le_float amount (row_balance r) = true),
    Bank.withdraw account_number amount w
    = (Ret tt, World (with_balance w account_number (fsub (row_balance r) (round_int amount)))
                     (transactions w ++ [logged w account_number "Withdrawn" amount])
                     (clock w) (st_out w ++ [Success "Amount withdrawn successfully"]))).
  { intros Hpos Hle. apply (withdraw_valid _ _ _ _ H); [lia | exact Hle |].
    apply in_int64_of_bounds. lia. }
  split; [| split; [| split; [| split]]].
  - intros Hpos Hle. rewrite (Hok Hpos Hle). cbn [fst snd].
    rewrite (balance_enquiry_found _ _ (AccountRow (row_name r)
               (fsub (row_balance r) (round_int amount))))
      by (cbn; apply lookup_with_balance; exact H).
    repeat split.
  - intros b Hb Hamount Hmax.
    assert (Hle : int_le_float amount (row_balance r) = true)
      by (rewrite Hb; cbn; apply Z.leb_le; lia).
    assert (Hpos : 0 < amount < 9223372036854775808) by lia.
    rewrite (Hok Hpos Hle). cbn [fst snd].
    rewrite (balance_enquiry_found _ _ (AccountRow (row_name r)
               (fsub (row_balance r) (round_int amount))))
      by (cbn; apply lookup_with_balance; exact H).
    rewrite Hb, (round_int_exact amount) by lia. rewrite fsub_exact by lia.
    unfold logged. rewrite (round_int_exact amount) by lia. repeat split.
  - intros Hgt.
    assert (Hno : ~ (0 < amount /\ int_le_float amount (row_balance r) = true))
      by (intros [_ Hc]; congruence).
    rewrite (withdraw_refused _ _ _ _ H Hno). cbn [fst snd].
    rewrite account_withdraw_raises by exact Hno.
    rewrite (balance_enquiry_found _ _ r) by exact H. repeat split.
  - intros Hgt Hpos.
    rewrite (withdraw_refused _ _ _ _ H) by (intros [_ Hc]; congruence). cbn.
    apply Z.ltb_lt in Hpos. rewrite Hpos. reflexivity.
  - intros Hgt Hle.
    rewrite (withdraw_refused _ _ _ _ H) by (intros [_ Hc]; congruence). cbn.
    apply Z.ltb_ge in Hle. rewrite Hle. reflexivity.
Qed.

Lemma withdraw_within_balance_or_refused_witness :
  result (Bank.balance_enquiry "A1") (after (Bank.withdraw "A1" 30) alice_100)
  = Ret (Some (Fin 70, "Alice"))
  /\ accounts (after (Bank.withdraw "A1" 200) alice_100) = accounts alice_100
  /\ st_out (after (Bank.withdraw "A1" 200) alice_100)
     = st_out alice_100 ++ [InsufficientFunds]
  /\ st_out (after (Bank.withdraw "B7" 0) bob_overdrawn)
     = st_out bob_overdrawn ++ [InvalidAmount].
Proof.
  destruct (withdraw_within_balance_or_refused alice_100 "A1" (AccountRow "Alice" (Fin 100)) 30)
    as (_ & Hok & _); [vm_compute; reflexivity |].
  destruct (withdraw_within_balance_or_refused alice_100 "A1" (AccountRow "Alice" (Fin 100)) 200)
    as (_ & _ & Hno & Hfunds & _); [vm_compute; reflexivity |].
  destruct (withdraw_within_balance_or_refused bob_overdrawn "B7" (AccountRow "Bob" (Fin (-3))) 0)
    as (_ & _ & _ & _ & Hinvalid); [vm_compute; reflexivity |].
  split; [| split; [| split]].
  - apply (Hok 100); [reflexivity | lia | discriminate].
  - apply Hno. reflexivity.
  - apply Hfunds; [reflexivity | lia].
  - apply Hinvalid; [reflexivity | lia].
Defined.

(** C2 as it is worded fails: on an account whose balance is negative, a
    withdrawal of 0 is above the balance, and the failure reported is an
    invalid amount, not insufficient funds; and on a balance of 2^54 a
    withdrawal of 1 is announced as done and logged while the balance
    stays 2^54. *)
Lemma withdraw_above_balance_not_insufficient_funds :
  accounts bob_overdrawn !! "B7" = Some (AccountRow "Bob" (Fin (-3)))
  /\ -3 < 0
  /\ result (Account.withdraw (Account.Make "B7" "Bob" (Fin (-3))) 0) bob_overdrawn
     = Raise (InsufficientFundsError "Invalid withdrawal amount")
  /\ emitted (Bank.withdraw "B7" 0) bob_overdrawn = [Error "Invalid withdrawal amount"]
  /\ emitted (Bank.withdraw "B7" 0) bob_overdrawn <> [InsufficientFunds]
  /\ accounts alice_2_54 !! "A1" = Some (AccountRow "Alice" (Fin 18014398509481984))
  /\ emitted (Bank.withdraw "A1" 1) alice_2_54 = [Success "Amount withdrawn successfully"]
  /\ result (Bank.balance_enquiry "A1") (after (Bank.withdraw "A1" 1) alice_2_54)
     = Ret (Some (Fin 18014398509481984, "Alice"))
  /\ result (Bank.balance_enquiry "A1") (after (Bank.withdraw "A1" 1) alice_2_54)
     <> Ret (Some (Fin (18014398509481984 - 1), "Alice")).
Proof.
  repeat split; try (vm_compute; reflexivity); vm_compute; discriminate.
Qed.

(** ** The invariants of the ledger *)

Lemma with_balance_forall (P : pyfloat -> Prop) (w : world) (a : string) (b : pyfloat) :
  map_Forall (fun _ r => P (row_balance r)) (accounts w) ->
  P b ->
  map_Forall (fun _ r => P (row_balance r)) (with_balance w a b).
Proof.
  intros Hinv Hb k r Hk. destruct (decide (a = k)) as [-> | Hne].
  - destruct (accounts w !! k) as [r0 |] eqn:H0.
    + rewrite (lookup_with_balance _ _ _ _ H0) in Hk. injection Hk as <-. exact Hb.
    + unfold with_balance in Hk. rewrite lookup_alter_eq, H0 in Hk. discriminate.
  - rewrite lookup_with_balance_other in Hk by exact Hne. exact (Hinv k r Hk).
Qed.

Lemma is_double_of_int64 (z : Z) : in_int64 z = true -> is_double (Fin (round_int z)).
Proof. intros H. split; [apply round_int_idem | apply int64_finite; exact H]. Qed.

(** Every stored balance stays a value of the REAL column. *)
Lemma effect_keeps_ledger_ok (w : world) (f : request) (ledger : gmap string account_row)
    (rows : list txn_row) :
  ledger_ok w -> effect_of w f ledger rows ->
  map_Forall (fun _ r => is_double (row_balance r)) ledger.
Proof.
  intros Hok Heff.
  destruct Heff as [f | name a b Hfresh Hin | a r x Hr Hpos Hin | a r x Hr Hpos Hin
                    | a r x Hr Hle Hin | a r x Hr Hpos Hfit Hin | a r x Hr Hpos Hfit Hin];
    try exact Hok.
  - apply map_Forall_insert_2; [apply is_double_of_int64; exact Hin | exact Hok].
  - apply with_balance_forall; [exact Hok | apply is_double_fadd; exact (Hok _ _ Hr)].
  - apply with_balance_forall; [exact Hok | apply is_double_fadd; exact (Hok _ _ Hr)].
  - apply with_balance_forall; [exact Hok | apply is_double_fsub; exact (Hok _ _ Hr)].
  - apply with_balance_forall; [exact Hok | apply is_double_fsub; exact (Hok _ _ Hr)].
Qed.

Lemma effect_keeps_nonneg (w : world) (f : request) (ledger : gmap string account_row)
    (rows : list txn_row) :
  ledger_ok w -> balances_nonneg w ->
  (forall name a b, f = CreateNewAccount name a b -> 0 <= b) ->
  effect_of w f ledger rows ->
  map_Forall (fun _ r => fle (Fin 0) (row_balance r)) ledger.
Proof.
  intros Hok Hinv Hopen Heff.
  destruct Heff as [f | name a b Hfresh Hin | a r x Hr Hpos Hin | a r x Hr Hpos Hin
                    | a r x Hr Hle Hin | a r x Hr Hpos Hfit Hin | a r x Hr Hpos Hfit Hin];
    try exact Hinv.
  - apply map_Forall_insert_2; [| exact Hinv]. cbn.
    apply round_int_nonneg. exact (Hopen _ _ _ eq_refl).
  - apply with_balance_forall; [exact Hinv |].
    apply fadd_nonneg; [exact (Hinv _ _ Hr) | apply round_int_nonneg; lia].
  - apply with_balance_forall; [exact Hinv |].
    apply fadd_nonneg; [exact (Hinv _ _ Hr) | apply round_int_nonneg; lia].
  - apply with_balance_forall; [exact Hinv |].
    apply fsub_nonneg; [exact (Hok _ _ Hr) | exact Hfit].
  - apply with_balance_forall; [exact Hinv |].
    apply fsub_nonneg; [exact (Hok _ _ Hr) | exact Hfit].
Qed.

(** The stored balances are values of the REAL column in the empty
    database, and stay so through every call of the facade. *)
Lemma ledger_ok_empty : ledger_ok empty_world.
Proof. apply map_Forall_empty. Qed.

Lemma ledger_ok_create_account (w : world) (name account_number : string) (balance : Z) :
  ledger_ok w -> ledger_ok (after (Bank.create_account name account_number balance) w).
Proof.
  intros Hok.
  destruct (create_account_effect name account_number balance w)
    as (o & ledger & msgs & Heq & Heff).
  unfold after, ledger_ok. rewrite Heq. cbn.
  exact (effect_keeps_ledger_ok _ _ _ _ Hok Heff).
Qed.

Lemma ledger_ok_perform (w : world) (account_number : string) (c : call) :
  ledger_ok w -> ledger_ok (after (perform account_number c) w).
Proof.
  intros Hok.
  destruct (perform_effect account_number c w) as (o & ledger & rows & msgs & Heq & Heff).
  unfold after, ledger_ok. rewrite Heq. cbn.
  exact (effect_keeps_ledger_ok _ _ _ _ Hok Heff).
Qed.

(** C3: when no stored balance is negative, none is after
    [Bank.create_account] called with an initial balance >= 0, none is after
    [Bank.deposit] and none is after [Bank.withdraw], whatever their other
    arguments.  The stored balances are values of the REAL column, which
    holds of the empty database and is kept by the same calls. *)
Theorem balances_stay_nonneg (w : world) :
  ledger_ok w ->
  balances_nonneg w ->
  (forall name account_number initial_balance,
     let w' := after (Bank.create_account name account_number initial_balance) w in
     ledger_ok w' /\ (0 <= initial_balance -> balances_nonneg w'))
  /\ (forall account_number amount,
        let w' := after (Bank.deposit account_number amount) w in
        ledger_ok w' /\ balances_nonneg w')
  /\ (forall account_number amount,
        let w' := after (Bank.withdraw account_number amount) w in
        ledger_ok w' /\ balances_nonneg w').
Proof.
  intros Hok Hinv. split; [| split].
  - intros name account_number initial_balance w'. subst w'.
    split; [apply ledger_ok_create_account; exact Hok |]. intros Hb.
    destruct (create_account_effect name account_number initial_balance w)
      as (o & ledger & msgs & Heq & Heff).
    unfold after, balances_nonneg. rewrite Heq. cbn.
    eapply (effect_keeps_nonneg w _ _ _ Hok Hinv); [| exact Heff].
    intros ? ? ? [= _ _ <-]. exact Hb.
  - intros account_number amount w'. subst w'.
    split; [apply (ledger_ok_perform w account_number (Deposit amount)); exact Hok |].
    destruct (perform_effect account_number (Deposit amount) w)
      as (o & ledger & rows & msgs & Heq & Heff).
    cbn [perform] in Heq. unfold after, balances_nonneg. rewrite Heq. cbn.
    eapply (effect_keeps_nonneg w _ _ _ Hok Hinv); [| exact Heff]; discriminate.
  - intros account_number amount w'. subst w'.
    split; [apply (ledger_ok_perform w account_number (Withdraw amount)); exact Hok |].
    destruct (perform_effect account_number (Withdraw amount) w)
      as (o & ledger & rows & msgs & Heq & Heff).
    cbn [perform] in Heq. unfold after, balances_nonneg. rewrite Heq. cbn.
    eapply (effect_keeps_nonneg w _ _ _ Hok Hinv); [| exact Heff]; discriminate.
Qed.

Lemma balances_stay_nonneg_witness :
  balances_nonneg (after (Bank.create_account "Bob" "B7" 0) alice_100)
  /\ balances_nonneg (after (Bank.deposit "A1" 50) alice_100)
  /\ balances_nonneg (after (Bank.withdraw "A1" 100) alice_100).
Proof.
  assert (Hok : ledger_ok alice_100).
  { apply (bool_decide_unpack _). vm_compute. exact I. }
  assert (Hinv : balances_nonneg alice_100).
  { apply (bool_decide_unpack _). vm_compute. exact I. }
  destruct (balances_stay_nonneg alice_100 Hok Hinv) as (Hc & Hd & Hw).
  split; [apply Hc; lia | split; [apply Hd | apply Hw]].
Defined.

(** ** Calls that fail *)

(** C4, on the input where it fails: on an existing account, a deposit of
    an amount <= 0 is refused with a warning and changes no balance, and
    yet, when the amount fits in 64 bits, it returns and appends a
    "Deposited" row with that amount to the log; below -2^63 the row cannot
    be written and [OverflowError] is raised. *)
Theorem invalid_deposit_is_logged
    (w : world) (account_number : string) (r : account_row) (amount : Z) :
  accounts w !! account_number = Some r ->
  amount <= 0 ->
  let w' := after (Bank.deposit account_number amount) w in
  st_out w' = st_out w ++ [Warning "Invalid deposit amount"]
  /\ accounts w' = accounts w
  /\ (- 2 ^ 63 <= amount ->
      result (Bank.deposit account_number amount) w = Ret tt
      /\ transactions w'
         = transactions w
           ++ [TxnRow (Z.of_nat (length (transactions w)) + 1)
                      account_number "Deposited" (round_int amount) (clock w)]
      /\ (- 2 ^ 53 <= amount -> round_int amount = amount))
  /\ (amount < - 2 ^ 63 ->
      result (Bank.deposit account_number amount) w = Raise TooLargeForSQLite
      /\ transactions w' = transactions w).
Proof.
  intros H Hle w'. subst w'. unfold after, result.
  change (2 ^ 63) with 9223372036854775808. change (2 ^ 53) with 9007199254740992.
  destruct (in_int64 amount) eqn:Hin.
  - rewrite (deposit_invalid _ _ _ _ H Hle Hin). cbn.
    apply in_int64_bounds in Hin.
    split; [reflexivity |]. split; [reflexivity |]. split.
    + intros _. split; [reflexivity |]. split; [reflexivity |].
      intros Hlo. apply round_int_exact. lia.
    + intros Hlo. lia.
  - rewrite (deposit_invalid_unlogged _ _ _ _ H Hle Hin). cbn.
    split; [reflexivity |]. split; [reflexivity |]. split.
    + intros Hlo. rewrite in_int64_of_bounds in Hin by lia. discriminate.
    + intros _. split; reflexivity.
Qed.

Lemma invalid_deposit_is_logged_witness :
  accounts (after (Bank.deposit "A1" (-5)) alice_100) = accounts alice_100
  /\ transactions (after (Bank.deposit "A1" (-5)) alice_100)
     = [TxnRow 1 "A1" "Deposited" (-5) 0].
Proof.
  destruct (invalid_deposit_is_logged alice_100 "A1" (AccountRow "Alice" (Fin 100)) (-5))
    as (_ & Ha & Hlog & _).
  - vm_compute. reflexivity.
  - lia.
  - destruct Hlog as (_ & Ht & _); [discriminate |].
    split; [exact Ha | exact Ht].
Defined.

(** The other failures leave the ledger and the log as they were. *)
Lemma failed_call_on_missing_account (w : world) (account_number : string) (c : call) :
  accounts w !! account_number = None ->
  accounts (after (perform account_number c) w) = accounts w
  /\ transactions (after (perform account_number c) w) = transactions w.
Proof.
  intros H. unfold after. destruct c as [amount | amount]; cbn.
  - rewrite (deposit_missing _ _ _ H). split; reflexivity.
  - rewrite (withdraw_missing _ _ _ H). split; reflexivity.
Qed.

Lemma refused_withdrawal_changes_nothing
    (w : world) (account_number : string) (r : account_row) (amount : Z) :
  accounts w !! account_number = Some r ->
  ~ (0 < amount /\ int_le_float amount (row_balance r) = true) ->
  accounts (after (Bank.withdraw account_number amount) w) = accounts w
  /\ transactions (after (Bank.withdraw account_number amount) w) = transactions w.
Proof.
  intros H Hno. unfold after. rewrite (withdraw_refused _ _ _ _ H Hno). split; reflexivity.
Qed.

(** ** Sequences of deposits and withdrawals *)

Lemma emitted_app {A} (m : M A) (w : world) (l : list st_msg) :
  st_out (after m w) = st_out w ++ l -> emitted m w = l.
Proof. intros H. unfold emitted. rewrite H. apply drop_app_length. Qed.

Lemma successful_deposit_iff (w : world) (account_number : string) (r : account_row)
    (amount : Z) :
  accounts w !! account_number = Some r ->
  in_int64 amount = true ->
  successful account_number (Deposit amount) w = (0 <? amount).
Proof.
  intros H Hin. unfold successful. destruct (Z_lt_le_dec 0 amount) as [Hpos | Hle].
  - rewrite (emitted_app _ _ []).
    + symmetry. apply Z.ltb_lt. exact Hpos.
    + unfold after. cbn. rewrite (deposit_valid _ _ _ _ H Hpos Hin). cbn.
      symmetry. apply app_nil_r.
  - rewrite (emitted_app _ _ [Warning "Invalid deposit amount"]).
    + symmetry. apply Z.ltb_ge. exact Hle.
    + unfold after. cbn. rewrite (deposit_invalid _ _ _ _ H Hle Hin). reflexivity.
Qed.

Lemma successful_withdraw_iff (w : world) (account_number : string) (r : account_row)
    (amount : Z) :
  accounts w !! account_number = Some r ->
  in_int64 amount = true ->
  successful account_number (Withdraw amount) w
  = int_le_float amount (row_balance r) && (0 <? amount).
Proof.
  intros H Hin. unfold successful.
  destruct (int_le_float amount (row_balance r)) eqn:Hfit;
    destruct (Z_lt_le_dec 0 amount) as [Hpos | Hle].
  - rewrite (emitted_app _ _ [Success "Amount withdrawn successfully"]).
    + symmetry. cbn. apply Z.ltb_lt. exact Hpos.
    + unfold after. cbn. rewrite (withdraw_valid _ _ _ _ H Hpos Hfit Hin). reflexivity.
  - rewrite (emitted_app _ _ [if 0 <? amount then InsufficientFunds else InvalidAmount]).
    + apply Z.ltb_ge in Hle. rewrite Hle. reflexivity.
    + unfold after. cbn. rewrite (withdraw_refused _ _ _ _ H); [reflexivity |].
      intros [Hc _]. lia.
  - rewrite (emitted_app _ _ [if 0 <? amount then InsufficientFunds else InvalidAmount]).
    + destruct (0 <? amount); reflexivity.
    + unfold after. cbn. rewrite (withdraw_refused _ _ _ _ H); [reflexivity |].
      intros [_ Hc]. congruence.
  - rewrite (emitted_app _ _ [if 0 <? amount then InsufficientFunds else InvalidAmount]).
    + destruct (0 <? amount); reflexivity.
    + unfold after. cbn. rewrite (withdraw_refused _ _ _ _ H); [reflexivity |].
      intros [_ Hc]. congruence.
Qed.

Lemma deposits_requested_nonneg (cs : list (Z * call)) : 0 <= deposits_requested cs.
Proof. induction cs as [| [t [x | x]] cs IH]; cbn [deposits_requested]; lia. Qed.

(** Within 2^53 one call moves the balance by exactly its amount when it is
    successful, and not at all otherwise. *)
Lemma perform_balance (w : world) (account_number : string) (r : account_row) (c : call)
    (b : Z) :
  accounts w !! account_number = Some r ->
  row_balance r = Fin b ->
  - 9007199254740992 <= call_amount c <= 9007199254740992 ->
  - 9007199254740992 <= b ->
  b + match c with Deposit amount => Z.max 0 amount | Withdraw _ => 0 end
  <= 9007199254740992 ->
  exists b',
    accounts (after (perform account_number c) w) !! account_number
    = Some (AccountRow (row_name r) (Fin b'))
    /\ b' = b
            + match c with
              | Deposit amount => if successful account_number c w then amount else 0
              | Withdraw _ => 0
              end
            - match c with
              | Deposit _ => 0
              | Withdraw amount => if successful account_number c w then amount else 0
              end
    /\ - 9007199254740992 <= b'
    /\ b' <= b + match c with Deposit amount => Z.max 0 amount | Withdraw _ => 0 end.
Proof.
  intros H Hb Hx Hlo Hhi.
  assert (Hin : in_int64 (call_amount c) = true) by (apply in_int64_of_bounds; lia).
  assert (Hsame : accounts w !! account_number = Some (AccountRow (row_name r) (Fin b)))
    by (rewrite H; destruct r; cbn in *; congruence).
  destruct c as [amount | amount]; cbn [call_amount] in Hx, Hin.
  - rewrite (successful_deposit_iff _ _ _ _ H Hin). unfold after. cbn [perform].
    destruct (0 <? amount) eqn:Hpos.
    + apply Z.ltb_lt in Hpos. rewrite (deposit_valid _ _ _ _ H Hpos Hin). cbn [snd accounts].
      rewrite (lookup_with_balance _ _ _ _ H), Hb, (round_int_exact amount) by lia.
      rewrite fadd_exact by lia. exists (b + amount). split; [reflexivity |]. lia.
    + apply Z.ltb_ge in Hpos. rewrite (deposit_invalid _ _ _ _ H Hpos Hin). cbn [snd accounts].
      exists b. split; [exact Hsame |]. lia.
  - rewrite (successful_withdraw_iff _ _ _ _ H Hin). unfold after. cbn [perform].
    destruct (int_le_float amount (row_balance r)) eqn:Hfit;
      destruct (0 <? amount) eqn:Hpos; cbn [andb];
      try (rewrite (withdraw_refused _ _ _ _ H)
             by (intros [Hc1 Hc2]; apply Z.ltb_lt in Hc1; congruence);
           cbn [snd accounts]; exists b; split; [exact Hsame | lia]).
    apply Z.ltb_lt in Hpos. rewrite (withdraw_valid _ _ _ _ H Hpos Hfit Hin).
    cbn [snd accounts].
    rewrite Hb in Hfit. cbn in Hfit. apply Z.leb_le in Hfit.
    rewrite (lookup_with_balance _ _ _ _ H), Hb, (round_int_exact amount) by lia.
    rewrite fsub_exact by lia. exists (b - amount). split; [reflexivity |]. lia.
Qed.

(** C5, as the code has it: for every sequence of deposit and withdraw
    calls on one account whose amounts are within 2^53 in magnitude, started
    on a balance >= -2^53 that stays <= 2^53 even if all that is asked to be
    deposited is, the final balance is the initial balance plus the amounts
    of the successful deposits minus the amounts of the successful
    withdrawals. *)
Theorem final_balance_of_call_sequence
    (account_number : string) (cs : list (Z * call)) (w : world) (r : account_row) (b : Z) :
  accounts w !! account_number = Some r ->
  row_balance r = Fin b ->
  Forall (fun tc => - 2 ^ 53 <= call_amount (snd tc) <= 2 ^ 53) cs ->
  - 2 ^ 53 <= b ->
  b + deposits_requested cs <= 2 ^ 53 ->
  result (Bank.balance_enquiry account_number) (perform_all account_number cs w)
  = Ret (Some (Fin (b
                    + successful_deposits account_number cs w
                    - successful_withdrawals account_number cs w),
               row_name r)).
Proof.
  change (2 ^ 53) with 9007199254740992.
  revert w r b. induction cs as [| [t c] cs IH]; intros w r b H Hb Hcs Hlo Hhi.
  - cbn. unfold result. rewrite (balance_enquiry_found _ _ _ H), Hb. cbn.
    do 4 f_equal. lia.
  - cbn [perform_all successful_deposits successful_withdrawals].
    apply Forall_cons in Hcs as [Hc Hcs]. cbn [snd] in Hc.
    pose proof (deposits_requested_nonneg cs) as Hrest.
    assert (H0 : accounts (at_time t w) !! account_number = Some r) by exact H.
    destruct (perform_balance (at_time t w) account_number r c b H0 Hb Hc Hlo)
      as (b' & H' & Hb' & Hlo' & Hhi').
    { destruct c as [x | x]; cbn [deposits_requested] in Hhi; lia. }
    rewrite (IH _ _ b' H' eq_refl Hcs Hlo').
    + cbn [row_name]. do 4 f_equal. lia.
    + destruct c as [x | x]; cbn [deposits_requested] in Hhi; lia.
Qed.

Lemma final_balance_of_call_sequence_witness :
  result (Bank.balance_enquiry "A1")
    (perform_all "A1"
       [(10, Deposit 50); (20, Withdraw 30); (30, Withdraw 200); (40, Deposit (-7))]
       alice_100)
  = Ret (Some (Fin (100 + 50 - 30), "Alice")).
Proof.
  rewrite (final_balance_of_call_sequence "A1"
             [(10, Deposit 50); (20, Withdraw 30); (30, Withdraw 200); (40, Deposit (-7))]
             alice_100 (AccountRow "Alice" (Fin 100)) 100).
  - vm_compute. reflexivity.
  - vm_compute. reflexivity.
  - reflexivity.
  - apply (bool_decide_unpack _). vm_compute. exact I.
  - discriminate.
  - discriminate.
Defined.

(** C5 as it is worded fails: on an account opened with 2^53 - 1, two
    deposits of 1 both succeed and the balance ends at 2^53, one less than
    the sum. *)
Lemma two_deposits_of_one_add_one :
  successful_deposits "A1" [(1, Deposit 1); (2, Deposit 1)] alice_below_2_53 = 2
  /\ successful_withdrawals "A1" [(1, Deposit 1); (2, Deposit 1)] alice_below_2_53 = 0
  /\ accounts alice_below_2_53 !! "A1" = Some (AccountRow "Alice" (Fin (9007199254740992 - 1)))
  /\ result (Bank.balance_enquiry "A1")
       (perform_all "A1" [(1, Deposit 1); (2, Deposit 1)] alice_below_2_53)
     = Ret (Some (Fin 9007199254740992, "Alice"))
  /\ result (Bank.balance_enquiry "A1")
       (perform_all "A1" [(1, Deposit 1); (2, Deposit 1)] alice_below_2_53)
     <> Ret (Some (Fin (9007199254740992 - 1 + 2 - 0), "Alice")).
Proof.
  repeat split; try (vm_compute; reflexivity); vm_compute; discriminate.
Qed.

(** ** The stable sort *)

Section sort_desc_facts.
Context {A : Type} (key : A -> Z).

Lemma insert_desc_perm (x : A) (l : list A) : insert_desc key x l ≡ₚ x :: l.
Proof.
  induction l as [| y l IH]; cbn; [reflexivity |].
  destruct (key y <=? key x); [reflexivity |].
  rewrite IH. apply Permutation_swap.
Qed.

Lemma sort_desc_perm (l : list A) : sort_desc key l ≡ₚ l.
Proof.
  induction l as [| x l IH]; cbn; [reflexivity |].
  rewrite insert_desc_perm, IH. reflexivity.
Qed.

Variable tie : A -> A -> Prop.

Lemma insert_desc_sorted (x : A) (l : list A) :
  StronglySorted (desc_then key tie) l ->
  Forall (tie x) l ->
  StronglySorted (desc_then key tie) (insert_desc key x l).
Proof.
  induction l as [| y l IH]; intros Hs Ht; cbn.
  - repeat constructor.
  - apply StronglySorted_cons in Hs as [Hy Hs].
    apply Forall_cons in Ht as [Hxy Ht].
    destruct (key y <=? key x) eqn:Hle.
    + apply Z.leb_le in Hle. constructor.
      * constructor; assumption.
      * constructor.
        -- unfold desc_then. destruct (decide (key y = key x)); [right | left]; [| lia].
           split; [congruence | exact Hxy].
        -- rewrite Forall_forall in Hy, Ht |- *. intros z Hz.
           specialize (Hy z Hz). specialize (Ht z Hz). unfold desc_then in *.
           destruct (decide (key z = key x)); [right | left]; [| lia].
           split; [congruence | exact Ht].
    + apply Z.leb_gt in Hle. constructor.
      * apply IH; assumption.
      * rewrite insert_desc_perm. constructor; [| exact Hy].
        left. exact Hle.
Qed.

(** Sorting keeps, among elements with equal keys, whatever order [tie]
    the input had between each element and the ones after it. *)
Lemma sort_desc_sorted (l : list A) :
  StronglySorted tie l -> StronglySorted (desc_then key tie) (sort_desc key l).
Proof.
  induction l as [| x l IH]; intros Hs; cbn.
  - constructor.
  - apply StronglySorted_cons in Hs as [Hx Hs].
    apply insert_desc_sorted; [apply IH; exact Hs |].
    rewrite sort_desc_perm. exact Hx.
Qed.
End sort_desc_facts.

(** ** Transaction histories *)

Lemma transaction_details_missing (w : world) (account_number : string) :
  accounts w !! account_number = None ->
  Bank.transaction_details account_number w
  = (Ret None, World (accounts w) (transactions w) (clock w) (st_out w ++ [AccountNotFound])).
Proof. intros H. run. rewrite H. reflexivity. Qed.

Lemma transaction_details_found (w : world) (account_number : string) (r : account_row) :
  accounts w !! account_number = Some r ->
  Bank.transaction_details account_number w
  = match merged_history account_number w with
    | _ :: _ => (Ret (Some (merged_history account_number w)), w)
    | [] => (Ret None,
             World (accounts w) (transactions w) (clock w)
                   (st_out w ++ [Warning "No transactions found for this account."]))
    end.
Proof.
  intros H. run. rewrite H. cbn.
  change (sort_desc tuple_timestamp _) with (merged_history account_number w).
  destruct (merged_history account_number w); reflexivity.
Qed.

Lemma fetched_action (account_number transaction_desc : string) (w : world) :
  Forall (fun x => tuple_action x = transaction_desc) (fetched account_number transaction_desc w).
Proof.
  unfold fetched. apply Forall_fmap. rewrite sort_desc_perm.
  apply Forall_forall. intros r Hr. apply list_elem_of_filter in Hr as [[_ Hd] _]. exact Hd.
Qed.

(** Rows of an account that has none: both queries come back empty. *)
Lemma fetched_nil (account_number transaction_desc : string) (w : world) :
  rows_of account_number w = [] -> fetched account_number transaction_desc w = [].
Proof.
  unfold rows_of, fetched. intros H.
  replace (filter _ (transactions w)) with (@nil txn_row); [reflexivity |].
  symmetry. induction (transactions w) as [| x l IH]; [reflexivity |].
  rewrite filter_cons in H. rewrite filter_cons.
  destruct (decide (txn_account_number x = account_number)) as [Ha | Ha]; [discriminate |].
  rewrite decide_False by tauto. apply IH. exact H.
Qed.

(** The two queries together fetch the rows of the account, once each. *)
Lemma fetched_both (account_number : string) (w : world) :
  log_descs_ok w ->
  fetched account_number "Deposited" w ++ fetched account_number "Withdrawn" w
  ≡ₚ tuple_of <$> rows_of account_number w.
Proof.
  unfold log_descs_ok, fetched, rows_of. intros Hok.
  rewrite !sort_desc_perm, <- fmap_app. apply fmap_Permutation.
  induction Hok as [| x l Hx Hok IH]; [reflexivity |].
  rewrite !filter_cons.
  destruct (decide (txn_account_number x = account_number)) as [Ha | Ha].
  - destruct Hx as [Hx | Hx].
    + rewrite decide_True by tauto.
      rewrite (decide_False (P := _ /\ txn_desc x = "Withdrawn"))
        by (rewrite Hx; intros [_ ?]; discriminate).
      cbn. rewrite IH. reflexivity.
    + rewrite (decide_False (P := _ /\ txn_desc x = "Deposited"))
        by (rewrite Hx; intros [_ ?]; discriminate).
      rewrite decide_True by tauto.
      rewrite <- Permutation_middle, IH. reflexivity.
  - rewrite !decide_False by tauto. exact IH.
Qed.

Lemma merged_history_perm (account_number : string) (w : world) :
  log_descs_ok w ->
  merged_history account_number w ≡ₚ tuple_of <$> rows_of account_number w.
Proof.
  intros Hok. unfold merged_history. rewrite sort_desc_perm. apply fetched_both. exact Hok.
Qed.

Lemma merged_history_sorted (account_number : string) (w : world) :
  StronglySorted history_order (merged_history account_number w).
Proof.
  unfold merged_history, history_order. apply sort_desc_sorted.
  pose proof (fetched_action account_number "Deposited" w) as Hd.
  pose proof (fetched_action account_number "Withdrawn" w) as Hw.
  rewrite Forall_forall in Hd, Hw.
  apply StronglySorted_app. split; [| split].
  - intros x y Hx Hy. right. apply Hw. exact Hy.
  - induction (fetched account_number "Deposited" w) as [| x l IH]; constructor.
    + apply IH. intros y Hy. apply Hd. right. exact Hy.
    + apply Forall_forall. intros y _. left. apply Hd. left.
  - induction (fetched account_number "Withdrawn" w) as [| x l IH]; constructor.
    + apply IH. intros y Hy. apply Hw. right. exact Hy.
    + apply Forall_forall. intros y Hy. right. apply Hw. right. exact Hy.
Qed.

(** C6, as the code has it: for every existing account,
    [Bank.transaction_details] builds the list of all rows of that account,
    newest first, in which among rows with equal timestamps every deposit
    stands before every withdrawal, whatever the order of insertion; it
    returns that list when it has a row, and otherwise returns [None] after
    a warning.  Nothing is stored. *)
Theorem transaction_details_newest_first
    (w : world) (account_number : string) (r : account_row) :
  accounts w !! account_number = Some r ->
  log_descs_ok w ->
  exists l,
    l ≡ₚ tuple_of <$> rows_of account_number w
    /\ StronglySorted history_order l
    /\ Bank.transaction_details account_number w
       = match l with
         | _ :: _ => (Ret (Some l), w)
         | [] => (Ret None,
                  World (accounts w) (transactions w) (clock w)
                        (st_out w ++ [Warning "No transactions found for this account."]))
         end.
Proof.
  intros H Hok. exists (merged_history account_number w).
  split; [apply merged_history_perm; exact Hok |].
  split; [apply merged_history_sorted |].
  apply (transaction_details_found _ _ _ H).
Qed.

Lemma transaction_details_newest_first_witness :
  exists l,
    l ≡ₚ tuple_of <$> rows_of "A1" scenario
    /\ StronglySorted history_order l
    /\ Bank.transaction_details "A1" scenario
       = match l with
         | _ :: _ => (Ret (Some l), scenario)
         | [] => (Ret None,
                  World (accounts scenario) (transactions scenario) (clock scenario)
                        (st_out scenario ++ [Warning "No transactions found for this account."]))
         end.
Proof.
  apply (transaction_details_newest_first scenario "A1" (AccountRow "Alice" (Fin 120))).
  - vm_compute. reflexivity.
  - apply (bool_decide_unpack _). vm_compute. exact I.
Defined.

(** C6 as it is worded fails: a withdrawal and then a deposit logged within
    one second come back deposit first, against their insertion order. *)
Lemma transaction_details_ties_not_in_insertion_order :
  tuple_of <$> transactions same_second = [("Withdrawn", 30, 5); ("Deposited", 50, 5)]
  /\ history_newest_first_stable "A1" same_second
     = [("Withdrawn", 30, 5); ("Deposited", 50, 5)]
  /\ result (Bank.transaction_details "A1") same_second
     = Ret (Some [("Deposited", 50, 5); ("Withdrawn", 30, 5)])
  /\ result (Bank.transaction_details "A1") same_second
     <> Ret (Some (history_newest_first_stable "A1" same_second)).
Proof.
  repeat split; try (vm_compute; reflexivity).
  vm_compute. discriminate.
Qed.

(** C7, as the code has it: for an existing account without rows
    [Bank.transaction_details] returns [None], as it does for a missing
    account; the two cases differ in what is put on the page, a warning
    that no transactions were found against an error that the account does
    not exist. *)
Theorem transaction_details_without_rows (w : world) (account_number : string) :
  (forall r,
     accounts w !! account_number = Some r ->
     rows_of account_number w = [] ->
     Bank.transaction_details account_number w
     = (Ret None,
        World (accounts w) (transactions w) (clock w)
              (st_out w ++ [Warning "No transactions found for this account."])))
  /\ (accounts w !! account_number = None ->
      Bank.transaction_details account_number w
      = (Ret None,
         World (accounts w) (transactions w) (clock w) (st_out w ++ [AccountNotFound])))
  /\ Warning "No transactions found for this account." <> AccountNotFound.
Proof.
  split; [| split].
  - intros r H Hnil. rewrite (transaction_details_found _ _ _ H).
    unfold merged_history. rewrite !fetched_nil by exact Hnil. reflexivity.
  - apply transaction_details_missing.
  - discriminate.
Qed.

Lemma transaction_details_without_rows_witness :
  emitted (Bank.transaction_details "A1") alice_100
  = [Warning "No transactions found for this account."]
  /\ emitted (Bank.transaction_details "B7") alice_100 = [AccountNotFound].
Proof.
  destruct (transaction_details_without_rows alice_100 "A1") as (Hrows & _ & _).
  destruct (transaction_details_without_rows alice_100 "B7") as (_ & Hmissing & _).
  split.
  - apply emitted_app. unfold after.
    rewrite (Hrows (AccountRow "Alice" (Fin 100))); [reflexivity | vm_compute; reflexivity | reflexivity].
  - apply emitted_app. unfold after.
    rewrite Hmissing; [reflexivity | vm_compute; reflexivity].
Defined.

(** C7 as it is worded fails: an existing account without rows gets
    [None], not an empty sequence. *)
Lemma transaction_details_without_rows_is_none :
  accounts alice_100 !! "A1" = Some (AccountRow "Alice" (Fin 100))
  /\ rows_of "A1" alice_100 = []
  /\ result (Bank.transaction_details "A1") alice_100 = Ret None
  /\ result (Bank.transaction_details "A1") alice_100 <> Ret (Some []).
Proof.
  repeat split; try (vm_compute; reflexivity).
  vm_compute. discriminate.
Qed.

(** The facade logs deposits and withdrawals only, so every world it
    reaches from the empty one satisfies [log_descs_ok]. *)
Lemma log_descs_ok_empty : log_descs_ok empty_world.
Proof. constructor. Qed.

Lemma effect_keeps_log_descs_ok (w : world) (f : request) (ledger : gmap string account_row)
    (rows : list txn_row) :
  log_descs_ok w -> effect_of w f ledger rows ->
  Forall (fun r => txn_desc r = "Deposited" \/ txn_desc r = "Withdrawn")
         (transactions w ++ rows).
Proof.
  intros Hok Heff. apply Forall_app. split; [exact Hok |].
  destruct Heff; try (constructor; fail);
    (constructor; [(left; reflexivity) || (right; reflexivity) | constructor]).
Qed.

Lemma log_descs_ok_create_account (w : world) (name account_number : string) (b : Z) :
  log_descs_ok w -> log_descs_ok (after (Bank.create_account name account_number b) w).
Proof.
  intros Hok.
  destruct (create_account_effect name account_number b w) as (o & ledger & msgs & Heq & Heff).
  unfold after, log_descs_ok. rewrite Heq. cbn.
  exact (effect_keeps_log_descs_ok _ _ _ _ Hok Heff).
Qed.

Lemma log_descs_ok_perform (w : world) (account_number : string) (c : call) :
  log_descs_ok w -> log_descs_ok (after (perform account_number c) w).
Proof.
  intros Hok.
  destruct (perform_effect account_number c w) as (o & ledger & rows & msgs & Heq & Heff).
  unfold after, log_descs_ok. rewrite Heq. cbn.
  exact (effect_keeps_log_descs_ok _ _ _ _ Hok Heff).
Qed.

(** ** The failures of a withdrawal *)

(** C8, as the code has it: a withdrawal that fails reports one of three
    different errors: that the account does not exist when it is absent,
    an invalid amount when the amount is <= 0, and insufficient funds when
    the amount is > 0 and above the balance.  None of them changes the
    ledger or the log. *)
Theorem withdraw_failure_kinds (w : world) (account_number : string) (amount : Z) :
  let failed_with x :=
    Bank.withdraw account_number amount w
    = (Ret tt, World (accounts w) (transactions w) (clock w) (st_out w ++ [x])) in
  (accounts w !! account_number = None -> failed_with AccountNotFound)
  /\ (forall r, accounts w !! account_number = Some r ->
                amount <= 0 -> failed_with InvalidAmount)
  /\ (forall r, accounts w !! account_number = Some r ->
                0 < amount -> exceeds amount (row_balance r) ->
                failed_with InsufficientFunds)
  /\ NoDup [AccountNotFound; InsufficientFunds; InvalidAmount].
Proof.
  cbv zeta. split; [| split; [| split]].
  - apply withdraw_missing.
  - intros r H Hle. rewrite (withdraw_refused _ _ _ _ H) by (intros [Hc _]; lia).
    apply Z.ltb_ge in Hle. rewrite Hle. reflexivity.
  - intros r H Hpos Hgt. unfold exceeds in Hgt.
    rewrite (withdraw_refused _ _ _ _ H) by (intros [_ Hc]; congruence).
    apply Z.ltb_lt in Hpos. rewrite Hpos. reflexivity.
  - apply (bool_decide_unpack _). vm_compute. exact I.
Qed.

Lemma withdraw_failure_kinds_witness :
  emitted (Bank.withdraw "B7" 30) alice_100 = [AccountNotFound]
  /\ emitted (Bank.withdraw "A1" 0) alice_100 = [InvalidAmount]
  /\ emitted (Bank.withdraw "A1" 200) alice_100 = [InsufficientFunds].
Proof.
  destruct (withdraw_failure_kinds alice_100 "B7" 30) as (Hmissing & _).
  destruct (withdraw_failure_kinds alice_100 "A1" 0) as (_ & Hinvalid & _).
  destruct (withdraw_failure_kinds alice_100 "A1" 200) as (_ & _ & Hfunds & _).
  split; [| split]; apply emitted_app; unfold after.
  - rewrite Hmissing; [reflexivity | vm_compute; reflexivity].
  - rewrite (Hinvalid (AccountRow "Alice" (Fin 100)));
      [reflexivity | vm_compute; reflexivity | lia].
  - rewrite (Hfunds (AccountRow "Alice" (Fin 100)));
      [reflexivity | vm_compute; reflexivity | lia | reflexivity].
Defined.

(** C8 as it is worded fails: on an account whose balance is negative, an
    amount above the balance and <= 0 is reported as an invalid amount and
    not as insufficient funds. *)
Lemma withdraw_above_negative_balance_is_invalid_amount :
  accounts alice_overdrawn !! "A1" = Some (AccountRow "Alice" (Fin (-10)))
  /\ -10 < -5
  /\ emitted (Bank.withdraw "A1" (-5)) alice_overdrawn = [InvalidAmount]
  /\ emitted (Bank.withdraw "A1" (-5)) alice_overdrawn <> [InsufficientFunds].
Proof.
  repeat split; try (vm_compute; reflexivity).
  vm_compute. discriminate.
Qed.

(** ** Creating accounts *)

(** C9, as the code has it: for every holder name, account number and
    initial balance that fits in 64 bits, the second of two calls of
    [Bank.create_account] with one account number fails with the warning
    that the account already exists and leaves the account of the first
    call, its balance included, as it was; the balance the first call
    stored is the nearest binary64 value, the initial balance itself up to
    2^53. *)
Theorem create_account_twice
    (w : world) (name1 name2 account_number : string) (balance1 balance2 : Z) :
  - 2 ^ 63 <= balance1 < 2 ^ 63 ->
  let w1 := after (Bank.create_account name1 account_number balance1) w in
  let w2 := after (Bank.create_account name2 account_number balance2) w1 in
  st_out w2
  = st_out w1 ++ [Warning "Account already exists. Please choose a different account number."]
  /\ accounts w2 = accounts w1
  /\ transactions w2 = transactions w1
  /\ result (Bank.balance_enquiry account_number) w2
     = Ret (Some (match accounts w !! account_number with
                  | Some r => (row_balance r, row_name r)
                  | None => (Fin (round_int balance1), name1)
                  end))
  /\ (- 2 ^ 53 <= balance1 <= 2 ^ 53 -> round_int balance1 = balance1).
Proof.
  intros Hfit w1 w2. subst w1 w2. unfold after, result.
  change (2 ^ 63) with 9223372036854775808 in Hfit. change (2 ^ 53) with 9007199254740992.
  assert (Hin : in_int64 balance1 = true) by (apply in_int64_of_bounds; exact Hfit).
  destruct (accounts w !! account_number) as [r |] eqn:H.
  - rewrite (create_account_taken _ _ _ _ _ H). cbn [fst snd].
    rewrite (create_account_taken _ _ _ _ r) by exact H. cbn [fst snd].
    rewrite (balance_enquiry_found _ _ r) by exact H.
    do 4 (split; [reflexivity |]). apply round_int_exact.
  - rewrite (create_account_fresh _ _ _ _ H Hin). cbn [fst snd].
    rewrite (create_account_taken _ _ _ _ (AccountRow name1 (Fin (round_int balance1))))
      by (cbn; apply lookup_insert_eq). cbn [fst snd].
    rewrite (balance_enquiry_found _ _ (AccountRow name1 (Fin (round_int balance1))))
      by (cbn; apply lookup_insert_eq).
    do 4 (split; [reflexivity |]). apply round_int_exact.
Qed.

Lemma create_account_twice_witness :
  st_out (after (Bank.create_account "Bob" "A1" 5)
            (after (Bank.create_account "Alice" "A1" 100) empty_world))
  = [Success "Account created successfully.";
     Warning "Account already exists. Please choose a different account number."]
  /\ result (Bank.balance_enquiry "A1")
       (after (Bank.create_account "Bob" "A1" 5)
          (after (Bank.create_account "Alice" "A1" 100) empty_world))
     = Ret (Some (Fin 100, "Alice")).
Proof.
  destruct (create_account_twice empty_world "Alice" "Bob" "A1" 100 5)
    as (Hout & _ & _ & Hbal & _); [split; [discriminate | reflexivity] |].
  split; [rewrite Hout; vm_compute; reflexivity | rewrite Hbal; vm_compute; reflexivity].
Defined.

(** C9 as it is worded fails: with an initial balance of 2^63 the first
    call raises [OverflowError] and stores nothing, so the second call with
    the same account number creates the account instead of failing. *)
Lemma create_account_twice_after_overflow :
  result (Bank.create_account "Alice" "A1" (2 ^ 63)) empty_world = Raise TooLargeForSQLite
  /\ accounts (after (Bank.create_account "Alice" "A1" (2 ^ 63)) empty_world) = ∅
  /\ emitted (Bank.create_account "Bob" "A1" 5)
       (after (Bank.create_account "Alice" "A1" (2 ^ 63)) empty_world)
     = [Success "Account created successfully."]
  /\ emitted (Bank.create_account "Bob" "A1" 5)
       (after (Bank.create_account "Alice" "A1" (2 ^ 63)) empty_world)
     <> [Warning "Account already exists. Please choose a different account number."].
Proof.
  repeat split; try (vm_compute; reflexivity).
  vm_compute. discriminate.
Qed.

(** C10, as the code has it: for every fresh account number and every
    initial balance that fits in 64 bits, negative ones included,
    [Bank.create_account] succeeds and stores the nearest binary64 value,
    which is exactly that balance up to 2^53 in magnitude; no check of its
    sign is made. *)
Theorem create_account_stores_any_balance
    (w : world) (name account_number : string) (initial_balance : Z) :
  accounts w !! account_number = None ->
  - 2 ^ 63 <= initial_balance < 2 ^ 63 ->
  let w' := after (Bank.create_account name account_number initial_balance) w in
  result (Bank.create_account name account_number initial_balance) w = Ret tt
  /\ st_out w' = st_out w ++ [Success "Account created successfully."]
  /\ accounts w'
     = <[account_number := AccountRow name (Fin (round_int initial_balance))]> (accounts w)
  /\ result (Bank.balance_enquiry account_number) w'
     = Ret (Some (Fin (round_int initial_balance), name))
  /\ (- 2 ^ 53 <= initial_balance <= 2 ^ 53 ->
      result (Bank.balance_enquiry account_number) w' = Ret (Some (Fin initial_balance, name))).
Proof.
  intros H Hfit w'. subst w'. unfold after, result.
  change (2 ^ 63) with 9223372036854775808 in Hfit. change (2 ^ 53) with 9007199254740992.
  rewrite (create_account_fresh _ _ _ _ H) by (apply in_int64_of_bounds; exact Hfit).
  cbn [fst snd].
  rewrite (balance_enquiry_found _ _ (AccountRow name (Fin (round_int initial_balance))))
    by (cbn; apply lookup_insert_eq).
  do 4 (split; [reflexivity |]). intros Hexact.
  rewrite (round_int_exact _ Hexact). reflexivity.
Qed.

Lemma create_account_stores_any_balance_witness :
  result (Bank.balance_enquiry "A1")
    (after (Bank.create_account "Alice" "A1" (-10)) empty_world)
  = Ret (Some (Fin (-10), "Alice"))
  /\ ~ balances_nonneg (after (Bank.create_account "Alice" "A1" (-10)) empty_world).
Proof.
  destruct (create_account_stores_any_balance empty_world "Alice" "A1" (-10))
    as (_ & _ & Ha & _ & Hb);
    [vm_compute; reflexivity | split; [discriminate | reflexivity] |].
  split; [apply Hb; split; discriminate |].
  intros Hinv. unfold balances_nonneg in Hinv. rewrite Ha in Hinv.
  specialize (Hinv "A1" _ (lookup_insert_eq _ _ _)).
  vm_compute in Hinv. apply Hinv. reflexivity.
Defined.

(** C10 as it is worded fails: an initial balance of 2^63 is not stored,
    the call raises [OverflowError]; and an initial balance of 2^53 + 1 is
    stored as 2^53. *)
Lemma create_account_does_not_store_every_balance :
  result (Bank.create_account "Alice" "A1" (2 ^ 63)) empty_world = Raise TooLargeForSQLite
  /\ accounts (after (Bank.create_account "Alice" "A1" (2 ^ 63)) empty_world) !! "A1" = None
  /\ result (Bank.create_account "Alice" "A1" (2 ^ 53 + 1)) empty_world = Ret tt
  /\ accounts (after (Bank.create_account "Alice" "A1" (2 ^ 53 + 1)) empty_world) !! "A1"
     = Some (AccountRow "Alice" (Fin 9007199254740992))
  /\ accounts (after (Bank.create_account "Alice" "A1" (2 ^ 53 + 1)) empty_world) !! "A1"
     <> Some (AccountRow "Alice" (Fin (9007199254740992 + 1))).
Proof.
  repeat split; try (vm_compute; reflexivity).
  vm_compute. discriminate.
Qed.

(** * Further properties of the facade *)

(** ** What a deposit or a withdrawal leaves alone *)

Lemma effect_touches_one (w : world) (account_number : string) (c : call)
    (ledger : gmap string account_row) (rows : list txn_row) :
  effect_of w (request_of account_number c) ledger rows ->
  delete account_number ledger = delete account_number (accounts w)
  /\ dom ledger = dom (accounts w)
  /\ row_name <$> ledger !! account_number = row_name <$> accounts w !! account_number.
Proof.
  assert (Halter : forall b,
    delete account_number (with_balance w account_number b)
    = delete account_number (accounts w)
    /\ dom (with_balance w account_number b) = dom (accounts w)
    /\ row_name <$> with_balance w account_number b !! account_number
       = row_name <$> accounts w !! account_number).
  { intros b. unfold with_balance. split; [apply delete_alter_eq |].
    split; [apply dom_alter_L |].
    rewrite lookup_alter_eq. destruct (accounts w !! account_number); reflexivity. }
  intros Heff. destruct c as [x | x]; cbn [request_of] in Heff;
    inversion Heff; subst; try apply Halter; repeat split.
Qed.

(** X1: a call on one account changes no other row of the ledger, adds and
    removes no account, keeps the holder's name and does not move the
    clock. *)
Theorem call_touches_one_balance (w : world) (account_number : string) (c : call) :
  let w' := after (perform account_number c) w in
  delete account_number (accounts w') = delete account_number (accounts w)
  /\ dom (accounts w') = dom (accounts w)
  /\ row_name <$> accounts w' !! account_number = row_name <$> accounts w !! account_number
  /\ clock w' = clock w.
Proof.
  intros w'. subst w'.
  destruct (perform_effect account_number c w) as (o & ledger & rows & msgs & Heq & Heff).
  unfold after. rewrite Heq. cbn [snd accounts clock].
  destruct (effect_touches_one _ _ _ _ _ Heff) as (H1 & H2 & H3).
  repeat split; assumption.
Qed.

(** X2: a deposit never lowers a balance and a withdrawal never raises one,
    whatever the sign and the size of the amount.  The stored balance is a
    value of the REAL column, as it is in every state of the database. *)
Theorem deposit_never_lowers_withdraw_never_raises
    (w : world) (account_number : string) (r : account_row) (amount : Z) :
  is_double (row_balance r) ->
  accounts w !! account_number = Some r ->
  (exists r', accounts (after (Bank.deposit account_number amount) w) !! account_number
              = Some r'
              /\ fle (row_balance r) (row_balance r'))
  /\ (exists r', accounts (after (Bank.withdraw account_number amount) w) !! account_number
                 = Some r'
                 /\ fle (row_balance r') (row_balance r)).
Proof.
  intros Hd H. split.
  - destruct (perform_effect account_number (Deposit amount) w)
      as (o & ledger & rows & msgs & Heq & Heff).
    cbn [perform request_of] in Heq, Heff. unfold after. rewrite Heq. cbn [snd accounts].
    inversion Heff; subst;
      try (exists r; split; [exact H | apply fle_refl]);
      match goal with Hr : accounts w !! account_number = Some ?r0 |- _ =>
        rewrite H in Hr; injection Hr as <- end;
      (eexists; split; [apply lookup_with_balance; exact H |]); cbn [row_balance];
      (apply fadd_not_lower; [exact Hd | apply round_int_nonneg; lia]).
  - destruct (perform_effect account_number (Withdraw amount) w)
      as (o & ledger & rows & msgs & Heq & Heff).
    cbn [perform request_of] in Heq, Heff. unfold after. rewrite Heq. cbn [snd accounts].
    inversion Heff; subst;
      try (exists r; split; [exact H | apply fle_refl]);
      match goal with Hr : accounts w !! account_number = Some ?r0 |- _ =>
        rewrite H in Hr; injection Hr as <- end;
      (eexists; split; [apply lookup_with_balance; exact H |]); cbn [row_balance];
      (apply fsub_not_higher; [exact Hd | apply round_int_nonneg; lia]).
Qed.

Lemma deposit_never_lowers_withdraw_never_raises_witness :
  (exists r', accounts (after (Bank.deposit "A1" (-40)) alice_100) !! "A1" = Some r'
              /\ fle (Fin 100) (row_balance r'))
  /\ (exists r', accounts (after (Bank.withdraw "A1" (-40)) alice_100) !! "A1" = Some r'
                 /\ fle (row_balance r') (Fin 100)).
Proof.
  apply (deposit_never_lowers_withdraw_never_raises alice_100 "A1"
           (AccountRow "Alice" (Fin 100)) (-40)).
  - apply (bool_decide_unpack _). vm_compute. exact I.
  - vm_compute. reflexivity.
Defined.

(** ** Enquiries *)

(** X3: [Bank.balance_enquiry], [Bank.transaction_details], [Bank.get_account]
    and [Account.get_transaction_history] read: none of them changes the
    ledger, the log or the clock.  The enquiry returns the stored balance
    and name of an account, and [None] for an account that is not there. *)
Theorem enquiries_only_read (w : world) (account_number : string) (self : Account.t) :
  let same w' :=
    accounts w' = accounts w /\ transactions w' = transactions w /\ clock w' = clock w in
  same (after (Bank.balance_enquiry account_number) w)
  /\ same (after (Bank.transaction_details account_number) w)
  /\ Bank.get_account account_number w
     = (Ret ((fun r => Account.Make account_number (row_name r) (row_balance r))
               <$> accounts w !! account_number), w)
  /\ after (Account.get_transaction_history self) w = w
  /\ result (Bank.balance_enquiry account_number) w
     = Ret ((fun r => (row_balance r, row_name r)) <$> accounts w !! account_number).
Proof.
  intros same. subst same. cbv beta. unfold after, result.
  destruct (accounts w !! account_number) as [r |] eqn:H.
  - rewrite (balance_enquiry_found _ _ _ H), (get_account_found _ _ _ H),
      (transaction_details_found _ _ _ H).
    destruct (merged_history account_number w); repeat split.
  - rewrite (balance_enquiry_missing _ _ H), (get_account_missing _ _ H),
      (transaction_details_missing _ _ H).
    repeat split.
Qed.

(** ** Exceptions *)

(** The outcome of a deposit or a withdrawal: it returns, or the amount
    does not fit in 64 bits and [OverflowError] is raised. *)
Lemma perform_outcome (account_number : string) (c : call) (w : world) :
  result (perform account_number c) w = Ret tt
  \/ (in_int64 (call_amount c) = false
      /\ exists message, result (perform account_number c) w = Raise (OverflowError message)).
Proof.
  unfold result.
  destruct c as [x | x]; cbn [perform call_amount];
    (destruct (accounts w !! account_number) as [r |] eqn:H;
     [| left; first [rewrite (deposit_missing _ _ _ H) | rewrite (withdraw_missing _ _ _ H)];
        reflexivity]).
  - destruct (Z_lt_le_dec 0 x) as [Hpos | Hle]; destruct (in_int64 x) eqn:Hin.
    + left. rewrite (deposit_valid _ _ _ _ H Hpos Hin). reflexivity.
    + right. split; [reflexivity |].
      destruct (Z_lt_le_dec (round_int x) huge) as [Hfin | Hbig].
      * rewrite (deposit_unlogged _ _ _ _ H Hpos Hin Hfin). eexists. reflexivity.
      * rewrite (deposit_float_overflow _ _ _ _ H Hpos Hbig). eexists. reflexivity.
    + left. rewrite (deposit_invalid _ _ _ _ H Hle Hin). reflexivity.
    + right. split; [reflexivity |].
      rewrite (deposit_invalid_unlogged _ _ _ _ H Hle Hin). eexists. reflexivity.
  - destruct (Z_lt_le_dec 0 x) as [Hpos | Hle];
      [destruct (int_le_float x (row_balance r)) eqn:Hfit |].
    + destruct (in_int64 x) eqn:Hin.
      * left. rewrite (withdraw_valid _ _ _ _ H Hpos Hfit Hin). reflexivity.
      * right. split; [reflexivity |].
        destruct (Z_lt_le_dec (round_int x) huge) as [Hfin | Hbig].
        -- rewrite (withdraw_unlogged _ _ _ _ H Hpos Hfit Hin Hfin). eexists. reflexivity.
        -- rewrite (withdraw_float_overflow _ _ _ _ H Hpos Hfit Hbig). eexists. reflexivity.
    + left. rewrite (withdraw_refused _ _ _ _ H); [reflexivity |].
      intros [_ Hc]. congruence.
    + left. rewrite (withdraw_refused _ _ _ _ H); [reflexivity |].
      intros [Hc _]. lia.
Qed.

Lemma create_account_outcome (name account_number : string) (balance : Z) (w : world) :
  result (Bank.create_account name account_number balance) w = Ret tt
  \/ (in_int64 balance = false
      /\ exists message,
           result (Bank.create_account name account_number balance) w
           = Raise (OverflowError message)).
Proof.
  unfold result. destruct (accounts w !! account_number) as [r |] eqn:H.
  - left. rewrite (create_account_taken _ _ _ _ _ H). reflexivity.
  - destruct (in_int64 balance) eqn:Hin.
    + left. rewrite (create_account_fresh _ _ _ _ H Hin). reflexivity.
    + right. split; [reflexivity |].
      rewrite (create_account_overflow _ _ _ _ H Hin). eexists. reflexivity.
Qed.

(** X4: with an integer that fits in 64 bits no call of the facade raises.
    Whatever the arguments, the only exception that leaves
    [Bank.create_account], [Bank.deposit] or [Bank.withdraw] is
    [OverflowError], for an integer that does not fit in 64 bits: the
    [InsufficientFundsError] of [Account.withdraw] is always caught in
    [Bank.withdraw].  The calls that read never raise. *)
Theorem facade_raises_only_overflow
    (w : world) (name account_number : string) (amount : Z) :
  (in_int64 amount = true ->
     result (Bank.create_account name account_number amount) w = Ret tt
     /\ result (Bank.deposit account_number amount) w = Ret tt
     /\ result (Bank.withdraw account_number amount) w = Ret tt)
  /\ (forall e,
        result (Bank.create_account name account_number amount) w = Raise e
        \/ result (Bank.deposit account_number amount) w = Raise e
        \/ result (Bank.withdraw account_number amount) w = Raise e ->
        in_int64 amount = false /\ exists message, e = OverflowError message)
  /\ (exists info, result (Bank.balance_enquiry account_number) w = Ret info)
  /\ (exists rows, result (Bank.transaction_details account_number) w = Ret rows)
  /\ (exists account, result (Bank.get_account account_number) w = Ret account).
Proof.
  pose proof (create_account_outcome name account_number amount w) as Hc.
  pose proof (perform_outcome account_number (Deposit amount) w) as Hd.
  pose proof (perform_outcome account_number (Withdraw amount) w) as Hw.
  cbn [perform call_amount] in Hd, Hw.
  split; [| split].
  - intros Hin.
    destruct Hc as [Hc | [Hc _]]; [| congruence].
    destruct Hd as [Hd | [Hd _]]; [| congruence].
    destruct Hw as [Hw | [Hw _]]; [| congruence].
    repeat split; assumption.
  - intros e [He | [He | He]].
    + destruct Hc as [Hc | (Hin & m & Hc)]; [congruence |].
      split; [exact Hin |]. exists m. congruence.
    + destruct Hd as [Hd | (Hin & m & Hd)]; [congruence |].
      split; [exact Hin |]. exists m. congruence.
    + destruct Hw as [Hw | (Hin & m & Hw)]; [congruence |].
      split; [exact Hin |]. exists m. congruence.
  - unfold result. destruct (accounts w !! account_number) as [r |] eqn:H.
    + rewrite (balance_enquiry_found _ _ _ H), (get_account_found _ _ _ H),
        (transaction_details_found _ _ _ H).
      split; [eexists; reflexivity |]. split; [| eexists; reflexivity].
      destruct (merged_history account_number w); eexists; reflexivity.
    + rewrite (balance_enquiry_missing _ _ H), (get_account_missing _ _ H),
        (transaction_details_missing _ _ H).
      repeat split; eexists; reflexivity.
Qed.

Lemma facade_raises_only_overflow_witness :
  result (Bank.deposit "A1" (2 ^ 63 - 1)) alice_100 = Ret tt
  /\ result (Bank.withdraw "A1" 1000) alice_100 = Ret tt.
Proof.
  destruct (facade_raises_only_overflow alice_100 "Alice" "A1" (2 ^ 63 - 1))
    as ((_ & Hd & _) & _); [reflexivity |].
  destruct (facade_raises_only_overflow alice_100 "Alice" "A1" 1000)
    as ((_ & _ & Hw) & _); [reflexivity |].
  split; assumption.
Defined.

(** ** Deposits against withdrawals *)

(** X5: within 2^53, a deposit of an amount > 0 followed by a withdrawal of
    the same amount gives the ledger back as it was, with two rows more in
    the log, when the balance was >= 0; on an account with a negative
    balance the withdrawal is refused for insufficient funds and the
    deposit stays. *)
Theorem deposit_then_withdraw_same_amount
    (w : world) (account_number : string) (r : account_row) (b amount : Z) :
  accounts w !! account_number = Some r ->
  row_balance r = Fin b ->
  0 < amount <= 2 ^ 53 ->
  let w2 := after (Bank.withdraw account_number amount)
              (after (Bank.deposit account_number amount) w) in
  (0 <= b -> b + amount <= 2 ^ 53 ->
     accounts w2 = accounts w
     /\ tuple_of <$> transactions w2
        = (tuple_of <$> transactions w)
          ++ [("Deposited", amount, clock w); ("Withdrawn", amount, clock w)]
     /\ st_out w2 = st_out w ++ [Success "Amount withdrawn successfully"])
  /\ (- 2 ^ 53 <= b < 0 ->
      accounts w2 !! account_number = Some (AccountRow (row_name r) (Fin (b + amount)))
      /\ tuple_of <$> transactions w2
         = (tuple_of <$> transactions w) ++ [("Deposited", amount, clock w)]
      /\ st_out w2 = st_out w ++ [InsufficientFunds]).
Proof.
  change (2 ^ 53) with 9007199254740992.
  intros H Hb Hamount w2. subst w2. unfold after.
  assert (Hin : in_int64 amount = true) by (apply in_int64_of_bounds; lia).
  rewrite (deposit_valid _ _ _ _ H (proj1 Hamount) Hin). cbn [snd].
  rewrite Hb, (round_int_exact amount) by lia. unfold logged.
  rewrite (round_int_exact amount) by lia.
  set (w1 := World _ _ _ _).
  split.
  - intros Hb0 Hsum.
    assert (H1 : accounts w1 !! account_number
                 = Some (AccountRow (row_name r) (Fin (b + amount)))).
    { cbn. rewrite fadd_exact by lia. apply lookup_with_balance. exact H. }
    assert (Hfit : int_le_float amount (row_balance (AccountRow (row_name r) (Fin (b + amount))))
                   = true) by (cbn; apply Z.leb_le; lia).
    rewrite (withdraw_valid w1 account_number _ amount H1 (proj1 Hamount) Hfit Hin).
    cbn [snd accounts transactions st_out row_balance row_name].
    rewrite (round_int_exact amount) by lia. rewrite fsub_exact by lia.
    split; [| split; [| reflexivity]].
    + apply map_eq. intros k. subst w1. unfold with_balance. cbn. unfold with_balance.
      destruct (decide (account_number = k)) as [<- | Hne].
      * rewrite !lookup_alter_eq, H. destruct r as [n x]. cbn in *. subst x.
        replace (b + amount - amount) with b by lia. reflexivity.
      * rewrite !lookup_alter_ne by exact Hne. reflexivity.
    + unfold logged. rewrite (round_int_exact amount) by lia.
      subst w1. cbn. rewrite !fmap_app, <- app_assoc. reflexivity.
  - intros Hneg.
    assert (H1 : accounts w1 !! account_number
                 = Some (AccountRow (row_name r) (Fin (b + amount)))).
    { cbn. rewrite fadd_exact by lia. apply lookup_with_balance. exact H. }
    rewrite (withdraw_refused w1 account_number _ amount H1)
      by (cbn; intros [_ Hc]; apply Z.leb_le in Hc; lia).
    cbn [snd accounts transactions st_out].
    split; [exact H1 |]. split; [subst w1; cbn; rewrite fmap_app; reflexivity |].
    destruct Hamount as [Hpos _]. apply Z.ltb_lt in Hpos. rewrite Hpos. reflexivity.
Qed.

Lemma deposit_then_withdraw_same_amount_witness :
  accounts (after (Bank.withdraw "A1" 40) (after (Bank.deposit "A1" 40) alice_100))
  = accounts alice_100
  /\ st_out (after (Bank.withdraw "A1" 2) (after (Bank.deposit "A1" 2) alice_overdrawn))
     = st_out alice_overdrawn ++ [InsufficientFunds].
Proof.
  destruct (deposit_then_withdraw_same_amount alice_100 "A1" (AccountRow "Alice" (Fin 100))
              100 40)
    as [Hback _]; [vm_compute; reflexivity | reflexivity | split; [lia | discriminate] |].
  destruct (deposit_then_withdraw_same_amount alice_overdrawn "A1"
              (AccountRow "Alice" (Fin (-10))) (-10) 2)
    as [_ Hstays]; [vm_compute; reflexivity | reflexivity | split; [lia | discriminate] |].
  split.
  - apply Hback; [lia | discriminate].
  - apply Hstays. split; [discriminate | lia].
Defined.

(** X6: a withdrawal is announced as done exactly when the account exists,
    [0 < amount <= balance] and the amount fits in 64 bits; the whole
    balance can be taken, and nothing can be taken from a balance that is 0
    or less. *)
Theorem withdraw_succeeds_iff (w : world) (account_number : string) (amount : Z) :
  Success "Amount withdrawn successfully" ∈ emitted (Bank.withdraw account_number amount) w
  <-> exists r, accounts w !! account_number = Some r
                /\ 0 < amount
                /\ int_le_float amount (row_balance r) = true
                /\ in_int64 amount = true.
Proof.
  assert (Hnone : forall w', st_out w' = st_out w ->
            ~ Success "Amount withdrawn successfully"
              ∈ drop (length (st_out w)) (st_out w')).
  { intros w' ->. rewrite drop_all. apply not_elem_of_nil. }
  destruct (accounts w !! account_number) as [r |] eqn:H.
  - destruct (Z_lt_le_dec 0 amount) as [Hpos | Hle];
      [destruct (int_le_float amount (row_balance r)) eqn:Hfit |].
    + destruct (in_int64 amount) eqn:Hin.
      * rewrite (emitted_app _ _ [Success "Amount withdrawn successfully"])
          by (unfold after; rewrite (withdraw_valid _ _ _ _ H Hpos Hfit Hin); reflexivity).
        split; [intros _; exists r; repeat split; assumption | intros _; left].
      * split; [| intros (r' & Hr' & _ & _ & Hc); discriminate].
        intros Hel. exfalso. revert Hel. unfold emitted, after. apply Hnone.
        destruct (Z_lt_le_dec (round_int amount) huge) as [Hfin | Hbig].
        -- rewrite (withdraw_unlogged _ _ _ _ H Hpos Hfit Hin Hfin). reflexivity.
        -- rewrite (withdraw_float_overflow _ _ _ _ H Hpos Hfit Hbig). reflexivity.
    + rewrite (emitted_app _ _ [if 0 <? amount then InsufficientFunds else InvalidAmount])
        by (unfold after; rewrite (withdraw_refused _ _ _ _ H);
            [reflexivity | intros [_ Hc]; congruence]).
      split.
      * intros Hel. apply list_elem_of_singleton in Hel.
        destruct (0 <? amount); discriminate.
      * intros (r' & Hr' & _ & Hc & _). injection Hr' as <-. congruence.
    + rewrite (emitted_app _ _ [if 0 <? amount then InsufficientFunds else InvalidAmount])
        by (unfold after; rewrite (withdraw_refused _ _ _ _ H);
            [reflexivity | intros [Hc _]; lia]).
      split.
      * intros Hel. apply list_elem_of_singleton in Hel.
        destruct (0 <? amount); discriminate.
      * intros (r' & _ & Hc & _). lia.
  - rewrite (emitted_app _ _ [AccountNotFound])
      by (unfold after; rewrite (withdraw_missing _ _ _ H); reflexivity).
    split.
    + intros Hel. apply list_elem_of_singleton in Hel. discriminate.
    + intros (r' & Hr' & _). discriminate.
Qed.

Lemma withdraw_succeeds_iff_witness :
  Success "Amount withdrawn successfully" ∈ emitted (Bank.withdraw "A1" 100) alice_100.
Proof.
  apply (withdraw_succeeds_iff alice_100 "A1" 100).
  exists (AccountRow "Alice" (Fin 100)).
  split; [vm_compute; reflexivity |]. split; [lia |]. split; reflexivity.
Defined.

(** ** The two readings of a history *)

(** X7: [Account.get_transaction_history] returns the rows of its account in
    table order.  When the log holds deposits and withdrawals only,
    [Bank.transaction_details] returns the same rows in another order if
    there is one, and [None] if there is none. *)
Theorem transaction_details_against_get_transaction_history
    (w : world) (r : account_row) (self : Account.t) :
  accounts w !! Account._account_number self = Some r ->
  log_descs_ok w ->
  exists history,
    Account.get_transaction_history self w = (Ret history, w)
    /\ history = tuple_of <$> rows_of (Account._account_number self) w
    /\ match result (Bank.transaction_details (Account._account_number self)) w with
       | Ret (Some l) => l ≡ₚ history
       | Ret None => history = []
       | Raise _ => False
       end.
Proof.
  intros H Hok. eexists. split; [reflexivity |]. split; [reflexivity |].
  unfold result. rewrite (transaction_details_found _ _ _ H).
  pose proof (merged_history_perm (Account._account_number self) w Hok) as Hp.
  destruct (merged_history (Account._account_number self) w) as [| x l] eqn:Hm; cbn.
  - symmetry. apply Permutation_nil_l. exact Hp.
  - exact Hp.
Qed.

Lemma transaction_details_against_get_transaction_history_witness :
  exists history,
    Account.get_transaction_history (Account.Make "A1" "Alice" (Fin 120)) scenario
    = (Ret history, scenario)
    /\ history = tuple_of <$> rows_of "A1" scenario
    /\ match result (Bank.transaction_details "A1") scenario with
       | Ret (Some l) => l ≡ₚ history
       | Ret None => history = []
       | Raise _ => False
       end.
Proof.
  apply (transaction_details_against_get_transaction_history scenario
           (AccountRow "Alice" (Fin 120)) (Account.Make "A1" "Alice" (Fin 120))).
  - vm_compute. reflexivity.
  - apply (bool_decide_unpack _). vm_compute. exact I.
Defined.

(** ** What one run does to the ledger and the log *)

(** A run of the banking page leaves the clock alone, only appends to the
    log and to the page, and changes the ledger in one of the ways of
    [effect_of]; it returns, or ends with an exception. *)
Lemma banking_app_effect (format_balance : pyfloat -> string) (f : request) (b : bool)
    (w : world) :
  exists o ledger rows msgs,
    banking_app format_balance f b w
    = (o, World ledger (transactions w ++ rows) (clock w) (st_out w ++ msgs))
    /\ effect_of w f ledger rows.
Proof.
  destruct b; [| exists (Ret tt), (accounts w), [], []; split;
                 [destruct f; cbn; unfold ret; f_equal; apply world_eta | constructor]].
  destruct f as [name a bal | a x | a x | a | a]; cbn [banking_app]; unfold bind.
  - destruct (create_account_effect name a bal w) as (o & ledger & msgs & Heq & Heff).
    exists o, ledger, [], msgs. split; assumption.
  - destruct (perform_effect a (Deposit x) w) as (o & ledger & rows & msgs & Heq & Heff).
    cbn [perform request_of] in Heq, Heff. rewrite Heq. destruct o as [[] | e].
    + exists (Ret tt), ledger, rows, (msgs ++ [Success "Funds Deposited successfully"]).
      split; [| exact Heff]. unfold st_success, emit. cbn. rewrite <- app_assoc. reflexivity.
    + exists (Raise e), ledger, rows, msgs. split; [reflexivity | exact Heff].
  - destruct (perform_effect a (Withdraw x) w) as (o & ledger & rows & msgs & Heq & Heff).
    exists o, ledger, rows, msgs. split; assumption.
  - destruct (accounts w !! a) as [r |] eqn:H.
    + rewrite (balance_enquiry_found _ _ _ H).
      eexists (Ret tt), (accounts w), [], [_].
      rewrite app_nil_r. split; [reflexivity | constructor].
    + rewrite (balance_enquiry_missing _ _ H).
      exists (Ret tt), (accounts w), [], [Warning "Account not found"].
      rewrite app_nil_r. split; [reflexivity | constructor].
  - destruct (accounts w !! a) as [r |] eqn:H.
    + rewrite (transaction_details_found _ _ _ H).
      destruct (merged_history a w).
      * exists (Ret tt), (accounts w), [], [Warning "No transactions found for this account."].
        rewrite app_nil_r. split; [reflexivity | constructor].
      * exists (Ret tt), (accounts w), [], []. split; [| constructor].
        unfold ret. f_equal. apply world_eta.
    + rewrite (transaction_details_missing _ _ H).
      exists (Ret tt), (accounts w), [], [AccountNotFound].
      rewrite app_nil_r. split; [reflexivity | constructor].
Qed.

Lemma script_effect (sha256_hexdigest : string -> string) (format_balance : pyfloat -> string)
    (i : widgets) (s : site) :
  exists ledger rows msgs,
    bank (script sha256_hexdigest format_balance i s)
    = World ledger (transactions (bank s) ++ rows) (clock (bank s))
            (st_out (bank s) ++ msgs)
    /\ effect_of (bank s) (form i) ledger rows.
Proof.
  assert (Hsame : exists ledger rows msgs,
            bank s = World ledger (transactions (bank s) ++ rows) (clock (bank s))
                           (st_out (bank s) ++ msgs)
            /\ effect_of (bank s) (form i) ledger rows).
  { exists (accounts (bank s)), [], []. split; [apply world_eta | constructor]. }
  assert (Hsay : forall x ss, exists ledger rows msgs,
            bank (say x (Site (bank s) (users s) ss))
            = World ledger (transactions (bank s) ++ rows) (clock (bank s))
                    (st_out (bank s) ++ msgs)
            /\ effect_of (bank s) (form i) ledger rows).
  { intros x ss. exists (accounts (bank s)), [], [x]. cbn. rewrite app_nil_r.
    split; [reflexivity | constructor]. }
  unfold script. cbn [session_state bank users].
  destruct (truthy _).
  - destruct (decide _); [| exact Hsame].
    unfold within_bank, after. cbn [bank].
    destruct (banking_app_effect format_balance (form i) (button i) (bank s))
      as (o & ledger & rows & msgs & -> & Heff).
    exists ledger, rows, msgs. split; [reflexivity | exact Heff].
  - destruct (radio i).
    + unfold login. destruct (button i); [| exact Hsame].
      destruct (negb (user_exists _ _)); [apply Hsay |].
      cbn [users]. destruct (users s !! username i); [| exact Hsame].
      destruct (negb _); [apply Hsay | exact Hsame].
    + unfold create_user. destruct (button i); [| exact Hsame].
      destruct (user_exists _ _); [apply Hsay |].
      exists (accounts (bank s)), [], [Success "User created successfully. You can now login."].
      cbn. rewrite app_nil_r. split; [reflexivity | constructor].
Qed.

(** ** The log is kept in step with the ledger *)

Lemma row_ok_mono (ledger ledger' : gmap string account_row) (r : txn_row) :
  (forall k, is_Some (ledger !! k) -> is_Some (ledger' !! k)) ->
  row_ok ledger r -> row_ok ledger' r.
Proof. intros Hsub [Hd Hk]. split; [exact Hd | apply Hsub; exact Hk]. Qed.

Lemma with_balance_keeps_keys (w : world) (a : string) (b : pyfloat) (k : string) :
  is_Some (accounts w !! k) -> is_Some (with_balance w a b !! k).
Proof.
  unfold with_balance. intros [r Hr]. destruct (decide (a = k)) as [-> | Hne].
  - rewrite lookup_alter_eq, Hr. eexists. reflexivity.
  - rewrite lookup_alter_ne by exact Hne. eexists. exact Hr.
Qed.

Lemma effect_keeps_log_ok (w : world) (f : request) (ledger : gmap string account_row)
    (rows : list txn_row) :
  log_ok w -> effect_of w f ledger rows -> Forall (row_ok ledger) (transactions w ++ rows).
Proof.
  unfold log_ok. intros Hok Heff. apply Forall_app.
  assert (Hkept : forall a b, Forall (row_ok (with_balance w a b)) (transactions w)).
  { intros a b. eapply Forall_impl; [exact Hok |]. intros r0. apply row_ok_mono.
    intros k. apply with_balance_keeps_keys. }
  destruct Heff as [f | name a b Hfresh Hin | a r x Hr Hpos Hin | a r x Hr Hpos Hin
                   | a r x Hr Hle Hin | a r x Hr Hpos Hfit Hin | a r x Hr Hpos Hfit Hin].
  - split; [exact Hok | constructor].
  - split; [| constructor].
    eapply Forall_impl; [exact Hok |]. intros r. apply row_ok_mono.
    intros k Hk. destruct (decide (a = k)) as [-> | Hne].
    + rewrite lookup_insert_eq. eexists. reflexivity.
    + rewrite lookup_insert_ne by exact Hne. exact Hk.
  - split; [apply Hkept |]. constructor; [| constructor].
    split; [left; reflexivity |]. cbn. apply with_balance_keeps_keys. eexists. exact Hr.
  - split; [apply Hkept | constructor].
  - split; [exact Hok |]. constructor; [| constructor].
    split; [left; reflexivity |]. cbn. eexists. exact Hr.
  - split; [apply Hkept |]. constructor; [| constructor].
    split; [right; cbn; split; [reflexivity | apply round_int_pos; exact Hpos] |].
    cbn. apply with_balance_keeps_keys. eexists. exact Hr.
  - split; [apply Hkept | constructor].
Qed.

Lemma replay_app (x : pyfloat) (l1 l2 : list txn_row) :
  replay x (l1 ++ l2) = replay (replay x l1) l2.
Proof. apply foldl_app. Qed.

Lemma apply_row_deposited (w : world) (a : string) (x : Z) (b : pyfloat) :
  apply_row b (logged w a "Deposited" x)
  = if 0 <? x then fadd b (round_int x) else b.
Proof.
  unfold apply_row, logged. cbn [txn_desc txn_amount].
  rewrite decide_True by reflexivity.
  destruct (Z_lt_le_dec 0 x) as [Hpos | Hle].
  - pose proof (round_int_pos _ Hpos) as Hr.
    apply Z.ltb_lt in Hpos, Hr. rewrite Hpos, Hr. reflexivity.
  - pose proof (round_int_nonpos _ Hle) as Hr.
    apply Z.ltb_ge in Hle, Hr. rewrite Hle, Hr. reflexivity.
Qed.

Lemma apply_row_withdrawn (w : world) (a : string) (x : Z) (b : pyfloat) :
  apply_row b (logged w a "Withdrawn" x) = fsub b (round_int x).
Proof.
  unfold apply_row, logged. cbn [txn_desc txn_amount].
  rewrite decide_False by discriminate. rewrite decide_True by reflexivity. reflexivity.
Qed.

(** With integers that fit in 64 bits, the balance of an account moves by
    what the rows appended for it say. *)
Lemma effect_keeps_balance_in_step (w : world) (f : request)
    (ledger : gmap string account_row) (rows : list txn_row) (a : string) (r : account_row) :
  request_in_int64 f = true ->
  accounts w !! a = Some r ->
  effect_of w f ledger rows ->
  exists r',
    ledger !! a = Some r'
    /\ row_name r' = row_name r
    /\ row_balance r'
       = replay (row_balance r) (filter (fun x => txn_account_number x = a) rows).
Proof.
  intros Hfits H Heff.
  destruct Heff as [f | name a' b Hfresh Hin | a' r0 x Hr Hpos Hin | a' r0 x Hr Hpos Hin
                   | a' r0 x Hr Hle Hin | a' r0 x Hr Hpos Hfit Hin | a' r0 x Hr Hpos Hfit Hin];
    cbn [request_in_int64] in Hfits; try congruence.
  - exists r. repeat split. exact H.
  - exists r. repeat split.
    rewrite lookup_insert_ne; [exact H |]. intros ->. congruence.
  - destruct (decide (a' = a)) as [-> | Hne].
    + rewrite Hr in H. injection H as ->.
      exists (AccountRow (row_name r) (fadd (row_balance r) (round_int x))).
      split; [apply lookup_with_balance; exact Hr |]. split; [reflexivity |].
      rewrite filter_cons_True by reflexivity. cbn [filter replay foldl row_balance].
      rewrite filter_nil. cbn [foldl].
      rewrite apply_row_deposited. apply Z.ltb_lt in Hpos. rewrite Hpos. reflexivity.
    + exists r. split; [rewrite lookup_with_balance_other by exact Hne; exact H |].
      split; [reflexivity |]. rewrite filter_cons_False by exact Hne. reflexivity.
  - exists r. split; [exact H |]. split; [reflexivity |].
    destruct (decide (a' = a)) as [-> | Hne].
    + rewrite filter_cons_True by reflexivity. rewrite filter_nil. cbn [replay foldl].
      rewrite apply_row_deposited. apply Z.ltb_ge in Hle. rewrite Hle. reflexivity.
    + rewrite filter_cons_False by exact Hne. reflexivity.
  - destruct (decide (a' = a)) as [-> | Hne].
    + rewrite Hr in H. injection H as ->.
      exists (AccountRow (row_name r) (fsub (row_balance r) (round_int x))).
      split; [apply lookup_with_balance; exact Hr |]. split; [reflexivity |].
      rewrite filter_cons_True by reflexivity. rewrite filter_nil. cbn [replay foldl row_balance].
      rewrite apply_row_withdrawn. reflexivity.
    + exists r. split; [rewrite lookup_with_balance_other by exact Hne; exact H |].
      split; [reflexivity |]. rewrite filter_cons_False by exact Hne. reflexivity.
Qed.

(** X8: whatever is done on the site, as many runs as one likes and with any
    inputs, every row of the log is described as a deposit or as a
    withdrawal, a row of a withdrawal has an amount > 0, and every row
    belongs to an account of the ledger. *)
Theorem visits_keep_log_ok (sha256_hexdigest : string -> string)
    (format_balance : pyfloat -> string) (runs : list (Z * widgets)) (s : site) :
  log_ok (bank s) ->
  log_ok (bank (visits sha256_hexdigest format_balance runs s)).
Proof.
  revert s. induction runs as [| [t i] runs IH]; intros s Hok; [exact Hok |].
  cbn [visits]. apply IH.
  set (s0 := Site (at_time t (bank s)) (users s) (session_state s)).
  destruct (script_effect sha256_hexdigest format_balance i s0)
    as (ledger & rows & msgs & Hb & Heff).
  unfold log_ok. rewrite Hb. cbn [accounts transactions].
  apply (effect_keeps_log_ok (bank s0) (form i)); [exact Hok | exact Heff].
Qed.

Lemma visits_keep_log_ok_witness :
  log_ok (bank (visits toy_digest toy_format alice_visits new_site))
  /\ length (transactions (bank (visits toy_digest toy_format alice_visits new_site))) = 3%nat.
Proof.
  split; [| vm_compute; reflexivity].
  apply (visits_keep_log_ok toy_digest toy_format alice_visits new_site).
  constructor.
Defined.

Lemma balance_in_step_over_visits (sha256_hexdigest : string -> string)
    (format_balance : pyfloat -> string) (runs : list (Z * widgets)) (s : site)
    (account_number : string) (r : account_row) :
  Forall (fun run => request_in_int64 (form (snd run)) = true) runs ->
  accounts (bank s) !! account_number = Some r ->
  exists r' rows,
    accounts (bank (visits sha256_hexdigest format_balance runs s)) !! account_number
    = Some r'
    /\ row_name r' = row_name r
    /\ rows_of account_number (bank (visits sha256_hexdigest format_balance runs s))
       = rows_of account_number (bank s) ++ rows
    /\ row_balance r' = replay (row_balance r) rows.
Proof.
  intros Hfit. revert s r. induction Hfit as [| [t i] runs Hi Hfit IH]; intros s r H.
  - exists r, []. rewrite app_nil_r. repeat split. exact H.
  - cbn [visits]. cbn [snd] in Hi.
    set (s0 := Site (at_time t (bank s)) (users s) (session_state s)).
    destruct (script_effect sha256_hexdigest format_balance i s0)
      as (ledger & rows & msgs & Hb & Heff).
    destruct (effect_keeps_balance_in_step (bank s0) (form i) ledger rows account_number r
                Hi H Heff)
      as (r1 & H1 & Hn1 & Hb1).
    destruct (IH (script sha256_hexdigest format_balance i s0) r1)
      as (r' & rows' & H' & Hn' & Hrows' & Hb').
    { rewrite Hb. exact H1. }
    exists r', (filter (fun x => txn_account_number x = account_number) rows ++ rows').
    split; [exact H' |]. split; [congruence |]. split.
    + rewrite Hrows'. unfold rows_of at 1. rewrite Hb. cbn [transactions].
      rewrite filter_app, <- app_assoc. reflexivity.
    + rewrite Hb', Hb1. symmetry. apply replay_app.
Qed.

(** X9: through any runs whose integers fit in 64 bits, an account stays in
    the ledger under its holder's name, the rows logged for it before stay,
    and its balance is the old one with the rows logged for it meanwhile
    replayed in the arithmetic of the program: a deposit of an amount > 0
    adds, a withdrawal takes, and the row of a refused deposit counts for
    nothing. *)
Theorem visits_keep_balance_in_step (sha256_hexdigest : string -> string)
    (format_balance : pyfloat -> string) (runs : list (Z * widgets)) (s : site)
    (account_number : string) (r : account_row) :
  Forall (fun run => request_in_int64 (form (snd run)) = true) runs ->
  accounts (bank s) !! account_number = Some r ->
  exists r' rows,
    accounts (bank (visits sha256_hexdigest format_balance runs s)) !! account_number
    = Some r'
    /\ row_name r' = row_name r
    /\ rows_of account_number (bank (visits sha256_hexdigest format_balance runs s))
       = rows_of account_number (bank s) ++ rows
    /\ row_balance r' = replay (row_balance r) rows.
Proof. apply balance_in_step_over_visits. Qed.

Lemma visits_keep_balance_in_step_witness :
  exists r',
    accounts (bank (visits toy_digest toy_format
                      [(8, Widgets Login "" "" (DepositFunds "A1" 7) true);
                       (9, Widgets Login "" "" (DepositFunds "A1" (-7)) true)]
                      (visits toy_digest toy_format alice_visits new_site))) !! "A1"
    = Some r'
    /\ row_balance r' = Fin 127.
Proof.
  destruct (visits_keep_balance_in_step toy_digest toy_format
              [(8, Widgets Login "" "" (DepositFunds "A1" 7) true);
               (9, Widgets Login "" "" (DepositFunds "A1" (-7)) true)]
              (visits toy_digest toy_format alice_visits new_site)
              "A1" (AccountRow "Alice" (Fin 120)))
    as (r' & rows & H' & _ & Hrows & Hb').
  - repeat constructor.
  - vm_compute. reflexivity.
  - exists r'. split; [exact H' |].
    assert (Heq : rows = [TxnRow 4 "A1" "Deposited" 7 8; TxnRow 5 "A1" "Deposited" (-7) 9]).
    { apply (app_inv_head (rows_of "A1"
               (bank (visits toy_digest toy_format alice_visits new_site)))).
      rewrite <- Hrows. vm_compute. reflexivity. }
    rewrite Hb', Heq. vm_compute. reflexivity.
Defined.

(** An account of a site whose log is in order has no rows before it is
    opened. *)
Lemma fresh_account_has_no_rows (w : world) (account_number : string) :
  log_ok w -> accounts w !! account_number = None -> rows_of account_number w = [].
Proof.
  unfold log_ok, rows_of. intros Hok Hfresh.
  induction Hok as [| x l [_ Hx] Hok IH]; [reflexivity |].
  rewrite filter_cons_False; [exact IH |].
  intros Heq. rewrite Heq, Hfresh in Hx. destruct Hx as [? Hx]. discriminate.
Qed.

(** X10: on a site whose log is in order, an account opened with some
    balance has, after any runs whose integers fit in 64 bits, the balance
    the REAL column took at the opening with the rows of its log replayed
    in the arithmetic of the program: the log accounts for the balance,
    once the rows of refused deposits are left out. *)
Theorem balance_is_opening_balance_plus_log (sha256_hexdigest : string -> string)
    (format_balance : pyfloat -> string) (runs : list (Z * widgets)) (s : site)
    (name account_number : string) (initial_balance : Z) :
  log_ok (bank s) ->
  accounts (bank s) !! account_number = None ->
  in_int64 initial_balance = true ->
  Forall (fun run => request_in_int64 (form (snd run)) = true) runs ->
  let s' := visits sha256_hexdigest format_balance runs
              (within_bank (Bank.create_account name account_number initial_balance) s) in
  exists r',
    accounts (bank s') !! account_number = Some r'
    /\ row_name r' = name
    /\ row_balance r'
       = replay (Fin (round_int initial_balance)) (rows_of account_number (bank s')).
Proof.
  intros Hok Hfresh Hin Hfit s'. subst s'.
  set (s1 := within_bank _ s).
  assert (Hb : bank s1
               = World (<[account_number := AccountRow name (Fin (round_int initial_balance))]>
                          (accounts (bank s)))
                       (transactions (bank s)) (clock (bank s))
                       (st_out (bank s) ++ [Success "Account created successfully."])).
  { subst s1. unfold within_bank, after. cbn [bank].
    rewrite (create_account_fresh _ _ _ _ Hfresh Hin). reflexivity. }
  destruct (balance_in_step_over_visits sha256_hexdigest format_balance runs s1
              account_number (AccountRow name (Fin (round_int initial_balance))) Hfit)
    as (r' & rows & H' & Hn' & Hrows' & Hb').
  { rewrite Hb. cbn. apply lookup_insert_eq. }
  exists r'. split; [exact H' |]. split; [exact Hn' |].
  assert (Hrows : rows_of account_number (bank s1) = []).
  { unfold rows_of. rewrite Hb. cbn [transactions].
    apply (fresh_account_has_no_rows (bank s)); assumption. }
  rewrite Hrows in Hrows'. cbn [app] in Hrows'. rewrite Hrows'. exact Hb'.
Qed.

Lemma balance_is_opening_balance_plus_log_witness :
  exists r',
    accounts (bank (visits toy_digest toy_format
                      [(4, Widgets Login "" "" (DepositFunds "B7" 5) true);
                       (5, Widgets Login "" "" (WithdrawAmount "B7" 1) true)]
                      (within_bank (Bank.create_account "Bob" "B7" (-3))
                         (visits toy_digest toy_format alice_visits new_site)))) !! "B7"
    = Some r'
    /\ row_name r' = "Bob"
    /\ row_balance r' = Fin 1.
Proof.
  destruct (balance_is_opening_balance_plus_log toy_digest toy_format
              [(4, Widgets Login "" "" (DepositFunds "B7" 5) true);
               (5, Widgets Login "" "" (WithdrawAmount "B7" 1) true)]
              (visits toy_digest toy_format alice_visits new_site) "Bob" "B7" (-3))
    as (r' & H' & Hn' & Hb').
  - apply (bool_decide_unpack _). vm_compute. exact I.
  - vm_compute. reflexivity.
  - reflexivity.
  - repeat constructor.
  - exists r'. split; [exact H' |]. split; [exact Hn' |].
    rewrite Hb'. vm_compute. reflexivity.
Defined.

(** X11: the log and the page only grow: no run removes or rewrites a row or a
    status element. *)
Theorem visits_only_append (sha256_hexdigest : string -> string)
    (format_balance : pyfloat -> string) (runs : list (Z * widgets)) (s : site) :
  transactions (bank s)
    `prefix_of` transactions (bank (visits sha256_hexdigest format_balance runs s))
  /\ st_out (bank s)
       `prefix_of` st_out (bank (visits sha256_hexdigest format_balance runs s)).
Proof.
  revert s. induction runs as [| [t i] runs IH]; intros s; [split; reflexivity |].
  cbn [visits].
  set (s0 := Site (at_time t (bank s)) (users s) (session_state s)).
  destruct (script_effect sha256_hexdigest format_balance i s0)
    as (ledger & rows & msgs & Hb & _).
  destruct (IH (script sha256_hexdigest format_balance i s0)) as [Ht Hs].
  rewrite Hb in Ht, Hs. cbn in Ht, Hs. split.
  - etransitivity; [| exact Ht]. apply prefix_app_r. reflexivity.
  - etransitivity; [| exact Hs]. apply prefix_app_r. reflexivity.
Qed.

(** * Properties of the entry page and of the script *)

(** ** Logging in and registering *)

(** X12: [login] writes neither to [users] nor to the bank's tables.  It opens
    the session exactly when the stored digest of the user is the digest of
    the password entered; otherwise it leaves the session as it was and
    reports one error. *)
Theorem login_checks_digest (sha256_hexdigest : string -> string)
    (username password : string) (s : site) :
  let s' := login sha256_hexdigest username password true s in
  users s' = users s
  /\ accounts (bank s') = accounts (bank s)
  /\ transactions (bank s') = transactions (bank s)
  /\ (users s !! username = Some (sha256_hexdigest password) ->
      s' = Site (bank s) (users s)
             (<["current_page" := PyStr "Banking App"]>
                (<["logged_in" := PyBool true]> (session_state s))))
  /\ (users s !! username <> Some (sha256_hexdigest password) ->
      session_state s' = session_state s
      /\ exists message, st_out (bank s') = st_out (bank s) ++ [Error message]).
Proof.
  intros s'. subst s'. unfold login, user_exists, hash_password.
  destruct (users s !! username) as [h |] eqn:Hu; cbn [negb].
  - destruct (String.eqb h (sha256_hexdigest password)) eqn:Hh; cbn [negb].
    + apply String.eqb_eq in Hh. subst h. cbn.
      do 3 (split; [reflexivity |]). split; [reflexivity | intros Hne; congruence].
    + apply String.eqb_neq in Hh. cbn.
      do 3 (split; [reflexivity |]). split.
      * intros [= Heq]. contradiction.
      * intros _. split; [reflexivity | eexists; reflexivity].
  - cbn. do 3 (split; [reflexivity |]). split; [discriminate |].
    intros _. split; [reflexivity | eexists; reflexivity].
Qed.

Lemma login_checks_digest_witness :
  session_state (login toy_digest "alice" "secret" true
                   (create_user toy_digest "alice" "secret" true new_site)) !! "logged_in"
  = Some (PyBool true)
  /\ session_state (login toy_digest "alice" "guess" true
                      (create_user toy_digest "alice" "secret" true new_site))
     = session_state new_site.
Proof.
  destruct (login_checks_digest toy_digest "alice" "secret"
              (create_user toy_digest "alice" "secret" true new_site))
    as (_ & _ & _ & Hyes & _).
  destruct (login_checks_digest toy_digest "alice" "guess"
              (create_user toy_digest "alice" "secret" true new_site))
    as (_ & _ & _ & _ & Hno).
  split.
  - rewrite Hyes by (vm_compute; reflexivity). vm_compute. reflexivity.
  - apply Hno. vm_compute. discriminate.
Defined.

(** X13: a user who registers under a free name can then log in with the same
    password, and is refused with any password of another digest. *)
Theorem create_user_then_login (sha256_hexdigest : string -> string)
    (username password other : string) (s : site) :
  users s !! username = None ->
  let s1 := create_user sha256_hexdigest username password true s in
  users s1 = <[username := sha256_hexdigest password]> (users s)
  /\ st_out (bank s1) = st_out (bank s) ++ [Success "User created successfully. You can now login."]
  /\ logged_in (login sha256_hexdigest username password true s1)
  /\ (sha256_hexdigest other <> sha256_hexdigest password ->
      session_state (login sha256_hexdigest username other true s1) = session_state s
      /\ st_out (bank (login sha256_hexdigest username other true s1))
         = st_out (bank s1) ++ [Error "Invalid password. Please try again."]).
Proof.
  intros Hfree s1.
  assert (Hs1 : s1 = Site (World (accounts (bank s)) (transactions (bank s)) (clock (bank s))
                             (st_out (bank s)
                              ++ [Success "User created successfully. You can now login."]))
                          (<[username := sha256_hexdigest password]> (users s))
                          (session_state s)).
  { subst s1. unfold create_user, user_exists. rewrite Hfree. reflexivity. }
  clearbody s1. subst s1. cbn [users bank st_out].
  split; [reflexivity |]. split; [reflexivity |].
  unfold login, user_exists, hash_password. cbn [users].
  rewrite lookup_insert_eq. cbn [negb]. split.
  - rewrite String.eqb_refl. cbn [negb]. split; cbn.
    + rewrite lookup_insert_ne by discriminate. apply lookup_insert_eq.
    + apply lookup_insert_eq.
  - intros Hne. apply not_eq_sym in Hne. apply String.eqb_neq in Hne. rewrite Hne.
    cbn. split; reflexivity.
Qed.

Lemma create_user_then_login_witness :
  logged_in (login toy_digest "bob" "pw" true (create_user toy_digest "bob" "pw" true new_site))
  /\ session_state (login toy_digest "bob" "pW" true
                      (create_user toy_digest "bob" "pw" true new_site))
     = session_state new_site.
Proof.
  destruct (create_user_then_login toy_digest "bob" "pw" "pW" new_site)
    as (_ & _ & Hin & Hout); [vm_compute; reflexivity |].
  split; [exact Hin |]. apply Hout. vm_compute. discriminate.
Defined.

Lemma script_keeps_users (sha256_hexdigest : string -> string)
    (format_balance : pyfloat -> string) (i : widgets) (s : site) (name digest : string) :
  users s !! name = Some digest ->
  users (script sha256_hexdigest format_balance i s) !! name = Some digest.
Proof.
  intros H. unfold script. cbn [session_state bank users].
  destruct (truthy _).
  - destruct (decide _); exact H.
  - destruct (radio i).
    + unfold login. destruct (button i); [| exact H].
      destruct (negb (user_exists _ _)); [exact H |].
      cbn [users]. destruct (users s !! username i); [| exact H].
      destruct (negb _); exact H.
    + unfold create_user, user_exists. destruct (button i); [| exact H].
      cbn [users]. destruct (users s !! username i) eqn:Hu; [exact H |].
      cbn. rewrite lookup_insert_ne; [exact H |]. intros Heq. rewrite Heq in Hu. congruence.
Qed.

(** X14: no run changes or removes the stored digest of a registered user:
    registering again under a taken name overwrites nothing. *)
Theorem registered_digest_never_changes (sha256_hexdigest : string -> string)
    (format_balance : pyfloat -> string) (runs : list (Z * widgets)) (s : site)
    (name digest : string) :
  users s !! name = Some digest ->
  users (visits sha256_hexdigest format_balance runs s) !! name = Some digest.
Proof.
  revert s. induction runs as [| [t i] runs IH]; intros s H; [exact H |].
  cbn [visits]. apply IH. apply script_keeps_users. exact H.
Qed.

Lemma registered_digest_never_changes_witness :
  users (visits toy_digest toy_format
           [(1, Widgets CreateUser "alice" "other" (BalanceEnquiry "") true)]
           (create_user toy_digest "alice" "secret" true new_site)) !! "alice"
  = Some (toy_digest "secret").
Proof.
  apply (registered_digest_never_changes toy_digest toy_format
           [(1, Widgets CreateUser "alice" "other" (BalanceEnquiry "") true)]
           (create_user toy_digest "alice" "secret" true new_site) "alice").
  vm_compute. reflexivity.
Defined.

(** ** The session and what it gives access to *)

Lemma init_session_logged_in (ss : gmap string pyval) :
  init_session ss !! "logged_in" = Some (default (PyBool false) (ss !! "logged_in")).
Proof.
  unfold init_session. repeat case_match; simplify_map_eq; reflexivity.
Qed.

Lemma init_session_current_page (ss : gmap string pyval) :
  init_session ss !! "current_page" = Some (default (PyStr "Login") (ss !! "current_page")).
Proof.
  unfold init_session. repeat case_match; simplify_map_eq; reflexivity.
Qed.

(** One run of a session that is logged out. *)
Lemma script_logged_out (sha256_hexdigest : string -> string)
    (format_balance : pyfloat -> string) (i : widgets) (s : site) :
  logged_out s ->
  let s' := script sha256_hexdigest format_balance i s in
  accounts (bank s') = accounts (bank s)
  /\ transactions (bank s') = transactions (bank s)
  /\ (logged_out s' \/ (logged_in s' /\ exists name, is_Some (users s' !! name))).
Proof.
  intros Hout s'. subst s'. unfold script. cbn [session_state bank users].
  assert (Hflag : init_session (session_state s) !! "logged_in" = Some (PyBool false)).
  { rewrite init_session_logged_in. destruct Hout as [-> | ->]; reflexivity. }
  rewrite Hflag. cbn [default truthy].
  assert (Hstill : logged_out (Site (bank s) (users s) (init_session (session_state s))))
    by (right; exact Hflag).
  destruct (radio i).
  - unfold login, user_exists. destruct (button i); [| repeat split; left; exact Hstill].
    cbn [users]. destruct (users s !! username i) as [h |] eqn:Hu; cbn [negb].
    + destruct (negb _).
      * cbn. repeat split. left. exact Hstill.
      * cbn [bank users]. repeat split. right. split.
        -- split; cbn.
           ++ rewrite lookup_insert_ne by discriminate. apply lookup_insert_eq.
           ++ apply lookup_insert_eq.
        -- exists (username i). cbn. rewrite Hu. eexists. reflexivity.
    + cbn. repeat split. left. exact Hstill.
  - unfold create_user. destruct (button i); [| repeat split; left; exact Hstill].
    destruct (user_exists _ _); cbn; repeat split; left; exact Hstill.
Qed.

(** One run of a session that is logged in. *)
Lemma script_logged_in (sha256_hexdigest : string -> string)
    (format_balance : pyfloat -> string) (i : widgets) (s : site) :
  logged_in s ->
  script sha256_hexdigest format_balance i s
  = within_bank (banking_app format_balance (form i) (button i))
      (Site (bank s) (users s) (init_session (session_state s)))
  /\ logged_in (script sha256_hexdigest format_balance i s).
Proof.
  intros [Hflag Hpage].
  assert (Hin : logged_in (Site (bank s) (users s) (init_session (session_state s)))).
  { split; cbn.
    - rewrite init_session_logged_in, Hflag. reflexivity.
    - rewrite init_session_current_page, Hpage. reflexivity. }
  unfold script. cbn [session_state bank users].
  destruct Hin as [Hflag' Hpage']. cbn in Hflag', Hpage'.
  rewrite Hflag'. cbn [default truthy].
  rewrite decide_True by exact Hpage'.
  split; [reflexivity |]. split; cbn; assumption.
Qed.

(** X15: a run of a session that is logged out leaves the ledger and the log
    untouched, whatever the inputs, the values left in the banking form
    included, and also when the run is the one that logs in. *)
Theorem script_needs_login (sha256_hexdigest : string -> string)
    (format_balance : pyfloat -> string) (i : widgets) (s : site) :
  logged_out s ->
  accounts (bank (script sha256_hexdigest format_balance i s)) = accounts (bank s)
  /\ transactions (bank (script sha256_hexdigest format_balance i s)) = transactions (bank s).
Proof.
  intros Hout.
  destruct (script_logged_out sha256_hexdigest format_balance i s Hout) as (Ha & Ht & _).
  split; assumption.
Qed.

Lemma script_needs_login_witness :
  accounts (bank (script toy_digest toy_format
                    (Widgets Login "alice" "secret" (CreateNewAccount "Alice" "A1" 100) true)
                    (create_user toy_digest "alice" "secret" true new_site)))
  = ∅.
Proof.
  destruct (script_needs_login toy_digest toy_format
              (Widgets Login "alice" "secret" (CreateNewAccount "Alice" "A1" 100) true)
              (create_user toy_digest "alice" "secret" true new_site))
    as [Ha _].
  - left. vm_compute. reflexivity.
  - rewrite Ha. vm_compute. reflexivity.
Defined.

Lemma visits_app (sha256_hexdigest : string -> string) (format_balance : pyfloat -> string)
    (runs1 runs2 : list (Z * widgets)) (s : site) :
  visits sha256_hexdigest format_balance (runs1 ++ runs2) s
  = visits sha256_hexdigest format_balance runs2
      (visits sha256_hexdigest format_balance runs1 s).
Proof.
  revert s. induction runs1 as [| [t i] runs1 IH]; intros s; [reflexivity |].
  cbn [app visits]. apply IH.
Qed.

Lemma visits_stay_logged_in (sha256_hexdigest : string -> string)
    (format_balance : pyfloat -> string) (runs : list (Z * widgets)) (s : site) :
  logged_in s ->
  logged_in (visits sha256_hexdigest format_balance runs s)
  /\ users (visits sha256_hexdigest format_balance runs s) = users s.
Proof.
  revert s. induction runs as [| [t i] runs IH]; intros s Hin; [split; [exact Hin | reflexivity] |].
  cbn [visits].
  set (s0 := Site (at_time t (bank s)) (users s) (session_state s)).
  destruct (script_logged_in sha256_hexdigest format_balance i s0 Hin) as [Heq Hin'].
  destruct (IH _ Hin') as [Hfinal Hu]. split; [exact Hfinal |].
  rewrite Hu, Heq. reflexivity.
Qed.

(** X16: there is no way out of a session: once logged in, the session stays
    logged in on the banking page through any runs, every one of these runs
    is a call of [banking_app] on the bank as the runs before left it, and
    the entry page is never run again, so that no user is added. *)
Theorem logged_in_for_good (sha256_hexdigest : string -> string)
    (format_balance : pyfloat -> string) (runs : list (Z * widgets)) (s : site) :
  logged_in s ->
  logged_in (visits sha256_hexdigest format_balance runs s)
  /\ users (visits sha256_hexdigest format_balance runs s) = users s
  /\ (forall runs1 t i runs2,
        runs = runs1 ++ (t, i) :: runs2 ->
        let s1 := visits sha256_hexdigest format_balance runs1 s in
        visits sha256_hexdigest format_balance (runs1 ++ [(t, i)]) s
        = within_bank (banking_app format_balance (form i) (button i))
            (Site (at_time t (bank s1)) (users s1) (init_session (session_state s1)))).
Proof.
  intros Hin.
  destruct (visits_stay_logged_in sha256_hexdigest format_balance runs s Hin) as [Hfinal Hu].
  split; [exact Hfinal |]. split; [exact Hu |].
  intros runs1 t i runs2 _ s1. subst s1.
  rewrite visits_app. cbn [visits].
  destruct (visits_stay_logged_in sha256_hexdigest format_balance runs1 s Hin) as [Hin1 _].
  set (s1 := visits sha256_hexdigest format_balance runs1 s) in *.
  apply (script_logged_in sha256_hexdigest format_balance i
           (Site (at_time t (bank s1)) (users s1) (session_state s1))).
  exact Hin1.
Qed.

Lemma logged_in_for_good_witness :
  logged_in (visits toy_digest toy_format
               [(3, Widgets Login "mallory" "x" (BalanceEnquiry "A1") true);
                (4, Widgets CreateUser "mallory" "x" (BalanceEnquiry "A1") true)]
               (visits toy_digest toy_format (take 2 alice_visits) new_site))
  /\ users (visits toy_digest toy_format
              [(3, Widgets Login "mallory" "x" (BalanceEnquiry "A1") true);
               (4, Widgets CreateUser "mallory" "x" (BalanceEnquiry "A1") true)]
              (visits toy_digest toy_format (take 2 alice_visits) new_site)) !! "mallory"
     = None.
Proof.
  destruct (logged_in_for_good toy_digest toy_format
              [(3, Widgets Login "mallory" "x" (BalanceEnquiry "A1") true);
               (4, Widgets CreateUser "mallory" "x" (BalanceEnquiry "A1") true)]
              (visits toy_digest toy_format (take 2 alice_visits) new_site))
    as (Hin & Hu & _).
  - split; vm_compute; reflexivity.
  - split; [exact Hin |]. rewrite Hu. vm_compute. reflexivity.
Defined.

(** X17: on a site started empty, whatever the runs: as long as the session is
    logged out there is no account and no logged row; an account or a row
    can only be there once a registered user has logged in. *)
Theorem ledger_needs_a_registered_user (sha256_hexdigest : string -> string)
    (format_balance : pyfloat -> string) (runs : list (Z * widgets)) :
  let s := visits sha256_hexdigest format_balance runs new_site in
  (logged_out s /\ accounts (bank s) = ∅ /\ transactions (bank s) = [])
  \/ (logged_in s /\ exists name, is_Some (users s !! name)).
Proof.
  cbn zeta.
  assert (Hgen : forall s : site,
    (logged_out s /\ accounts (bank s) = ∅ /\ transactions (bank s) = [])
    \/ (logged_in s /\ exists name, is_Some (users s !! name)) ->
    let s' := visits sha256_hexdigest format_balance runs s in
    (logged_out s' /\ accounts (bank s') = ∅ /\ transactions (bank s') = [])
    \/ (logged_in s' /\ exists name, is_Some (users s' !! name))).
  { induction runs as [| [t i] runs IH]; intros s Hs; [exact Hs |].
    cbn [visits]. apply IH.
    set (s0 := Site (at_time t (bank s)) (users s) (session_state s)).
    destruct Hs as [(Hout & Ha & Ht) | (Hin & name & Hname)].
    - destruct (script_logged_out sha256_hexdigest format_balance i s0 Hout)
        as (Ha' & Ht' & [Hout' | Hin']).
      + left. split; [exact Hout' |]. rewrite Ha', Ht'. split; assumption.
      + right. exact Hin'.
    - right. destruct (script_logged_in sha256_hexdigest format_balance i s0 Hin)
        as [Heq Hin'].
      split; [exact Hin' |]. exists name. rewrite Heq. exact Hname. }
  apply Hgen. left. split; [left; reflexivity | split; reflexivity].
Qed.

(** ** The deposit button *)

Lemma deposit_returns (w : world) (account_number : string) (amount : Z) :
  in_int64 amount = true \/ accounts w !! account_number = None ->
  result (Bank.deposit account_number amount) w = Ret tt.
Proof.
  intros Hcase. unfold result. destruct (accounts w !! account_number) as [r |] eqn:H.
  - destruct Hcase as [Hin | Hc]; [| discriminate].
    destruct (Z_lt_le_dec 0 amount) as [Hpos | Hle].
    + rewrite (deposit_valid _ _ _ _ H Hpos Hin). reflexivity.
    + rewrite (deposit_invalid _ _ _ _ H Hle Hin). reflexivity.
  - rewrite (deposit_missing _ _ _ H). reflexivity.
Qed.

(** X18: a press of the deposit button with an amount that fits in 64 bits,
    or for an account that does not exist, returns and ends with the
    announcement that funds were deposited.  When the account does not
    exist or the amount is <= 0 the announcement follows the error or the
    warning, and the ledger is as it was.  On an existing account an amount
    that does not fit in 64 bits ends the run with [OverflowError], and
    nothing is announced. *)
Theorem deposit_button_reports_success
    (format_balance : pyfloat -> string) (account_number : string) (amount : Z) (w : world) :
  let press := banking_app format_balance (DepositFunds account_number amount) true in
  let w' := after press w in
  (in_int64 amount = true \/ accounts w !! account_number = None ->
     result press w = Ret tt
     /\ last (st_out w') = Some (Success "Funds Deposited successfully"))
  /\ (accounts w !! account_number = None ->
      accounts w' = accounts w /\ transactions w' = transactions w
      /\ emitted press w = [AccountNotFound; Success "Funds Deposited successfully"])
  /\ (forall r, accounts w !! account_number = Some r -> amount <= 0 ->
      in_int64 amount = true ->
      accounts w' = accounts w
      /\ emitted press w
         = [Warning "Invalid deposit amount"; Success "Funds Deposited successfully"])
  /\ (forall r, accounts w !! account_number = Some r -> in_int64 amount = false ->
      (exists message, result press w = Raise (OverflowError message))
      /\ ~ Success "Funds Deposited successfully" ∈ emitted press w).
Proof.
  intros press w'.
  assert (Hw' : in_int64 amount = true \/ accounts w !! account_number = None ->
                press w = (Ret tt, after (st_success "Funds Deposited successfully")
                                     (after (Bank.deposit account_number amount) w))).
  { intros Hcase. subst press. unfold after. cbn [banking_app]. unfold bind.
    pose proof (deposit_returns w account_number amount Hcase) as Hd.
    unfold result in Hd. destruct (Bank.deposit account_number amount w) as [o w1].
    cbn in Hd. subst o. reflexivity. }
  split; [| split; [| split]].
  - intros Hcase. subst w'. unfold result, after at 1. rewrite (Hw' Hcase). cbn [fst snd].
    split; [reflexivity |]. cbn. apply last_snoc.
  - intros H. subst w'. unfold emitted, after at 1 2 3. rewrite (Hw' (or_intror H)).
    cbn [snd]. unfold after at 2 4 6.
    rewrite (deposit_missing _ _ _ H). cbn.
    split; [reflexivity |]. split; [reflexivity |].
    rewrite <- app_assoc. apply drop_app_length.
  - intros r H Hle Hin. subst w'. unfold emitted, after at 1 2. rewrite (Hw' (or_introl Hin)).
    cbn [snd]. unfold after at 2 4.
    rewrite (deposit_invalid _ _ _ _ H Hle Hin). cbn.
    split; [reflexivity |].
    rewrite <- app_assoc. apply drop_app_length.
  - intros r H Hin. subst w' press. unfold emitted, result, after. cbn [banking_app].
    unfold bind.
    assert (Hraise : exists message msgs w1,
              Bank.deposit account_number amount w = (Raise (OverflowError message), w1)
              /\ st_out w1 = st_out w ++ msgs
              /\ ~ Success "Funds Deposited successfully" ∈ msgs).
    { destruct (Z_lt_le_dec 0 amount) as [Hpos | Hle].
      - destruct (Z_lt_le_dec (round_int amount) huge) as [Hfin | Hbig].
        + eexists _, [], _. split; [apply (deposit_unlogged _ _ _ _ H Hpos Hin Hfin) |].
          cbn. rewrite app_nil_r. split; [reflexivity | apply not_elem_of_nil].
        + eexists _, [], _. split; [apply (deposit_float_overflow _ _ _ _ H Hpos Hbig) |].
          rewrite app_nil_r. split; [reflexivity | apply not_elem_of_nil].
      - eexists _, [_], _. split; [apply (deposit_invalid_unlogged _ _ _ _ H Hle Hin) |].
        cbn. split; [reflexivity |]. intros Hel. apply list_elem_of_singleton in Hel.
        discriminate. }
    destruct Hraise as (message & msgs & w1 & -> & Hout & Hnot). cbn [fst snd].
    split; [exists message; reflexivity |].
    rewrite Hout, drop_app_length. exact Hnot.
Qed.

Lemma deposit_button_reports_success_witness :
  emitted (banking_app toy_format (DepositFunds "B7" 50) true) alice_100
  = [AccountNotFound; Success "Funds Deposited successfully"]
  /\ emitted (banking_app toy_format (DepositFunds "A1" 0) true) alice_100
     = [Warning "Invalid deposit amount"; Success "Funds Deposited successfully"]
  /\ ~ Success "Funds Deposited successfully"
       ∈ emitted (banking_app toy_format (DepositFunds "A1" (2 ^ 63)) true) alice_100.
Proof.
  destruct (deposit_button_reports_success toy_format "B7" 50 alice_100)
    as (_ & Hmissing & _).
  destruct (deposit_button_reports_success toy_format "A1" 0 alice_100)
    as (_ & _ & Hinvalid & _).
  destruct (deposit_button_reports_success toy_format "A1" (2 ^ 63) alice_100)
    as (_ & _ & _ & Hlarge).
  split; [| split].
  - apply Hmissing. vm_compute. reflexivity.
  - apply (Hinvalid (AccountRow "Alice" (Fin 100))); [vm_compute; reflexivity | lia | reflexivity].
  - apply (Hlarge (AccountRow "Alice" (Fin 100))); [vm_compute; reflexivity | reflexivity].
Defined.
